(** * RS Rujukan Regional (Hospital 4.0) API: a model of [main.py]

    The request handlers of [src/main.py] are embedded as functions in a
    small state-and-exception monad over the document store, and the
    properties of the admission ledger, the triage rule, the pharmacy
    stock check, the sterile workflow, the audit trail and the occupancy
    dashboard are proved about them.

    Conventions.
    - A Python [int] is a [Z]; a Python [float] is a binary64 [float].
    - A [datetime] is a [Z]: microseconds since the epoch.
    - A [dict] with string keys is a [gmap string _]; [d.get(k)] is
      [d !! k]. A document inside a value keeps its keys in order, as a
      list of pairs.
    - An exception that is not an [HTTPException], such as the
      [OperationFailure] of the store, is an [Exception] with its text.
    - A collection of the store is the list of its documents in insertion
      order; [find_one] returns the first match, [update_one] changes the
      first match. *)

From Stdlib Require Import ZArith Floats.
From stdpp Require Import gmap strings list pretty.

Open Scope string_scope.
Open Scope list_scope.
Open Scope Z_scope.

(** ** Python values *)

(** The values a field typed [Any] holds: what a JSON body can carry,
    scalars, lists and documents (a [dict], with its keys in order). *)
#[warnings="-register-all"] Inductive pyval : Type :=
  | PNone
  | PBool (b : bool)
  | PInt (z : Z)
  | PFloat (f : float)
  | PStr (s : string)
  | PList (l : list pyval)
  | PDict (d : list (string * pyval)).

(** Python truthiness, as used by [not x], [x or y] and [if x]. *)
Definition truthy (v : pyval) : bool :=
  match v with
  | PNone => false
  | PBool b => b
  | PInt z => negb (z =? 0)
  | PFloat f => negb (PrimFloat.eqb f 0%float)
  | PStr s => negb (String.eqb s "")
  | PList l => match l with [] => false | _ => true end
  | PDict d => match d with [] => false | _ => true end
  end.

(** [x or y] on values. *)
Definition py_or (x y : pyval) : pyval := if truthy x then x else y.

(** [d.get(k)] of a [Dict[str, Any]]: [None] when the key is absent. *)
Definition dict_get (d : gmap string pyval) (k : string) : pyval :=
  default PNone (d !! k).

Definition datetime : Type := Z.

(** [timedelta(hours=h)] in microseconds. *)
Definition timedelta_hours (h : Z) : Z := h * 3600 * 1000000.

(** [float(z)]: the binary64 nearest to the integer [z]. *)
Definition float_of_Z (z : Z) : float :=
  SF2Prim (binary_normalize 53 1024 z 0 false).

Definition SF_of_Z (z : Z) : spec_float :=
  match z with
  | Z0 => S754_zero false
  | Zpos p => S754_finite false p 0
  | Zneg p => S754_finite true p 0
  end.

(** [a / b] on two Python ints: the correctly rounded quotient. (Python
    raises [ZeroDivisionError] for [b = 0] and [OverflowError] beyond the
    binary64 range; the only use below is guarded by [b <> 0].) *)
Definition int_truediv (a b : Z) : float :=
  SF2Prim (SFdiv 53 1024 (SF_of_Z a) (SF_of_Z b)).

(** [f < z] for a float [f] and an int [z] exactly representable. *)
Definition float_lt_int (f : float) (z : Z) : bool :=
  PrimFloat.ltb f (float_of_Z z).

(** ** schemas.py *)

Module PersonName.
Record t := mk { first : string; last : option string; middle : option string }.
End PersonName.

Module Contact.
Record t := mk {
  name : string;
  relation : option string;
  phone : option string;
  email : option string;
  address : option string }.
End Contact.

Module Allergy.
Inductive severity_t := mild | moderate | severe | anaphylaxis.
Record t := mk {
  substance : string;
  reaction : option string;
  severity : option severity_t }.
End Allergy.

Module ChronicCondition.
Inductive status_t := active | remission | resolved.
Record t := mk { name : string; status : option status_t }.
End ChronicCondition.

Module InsuranceInfo.
Inductive type_t := umum | bpjs | pppk | jampersal | jamkesda | sisrute | telemedis.
Record t := mk {
  type_ : type_t;
  policy_number : option string;
  provider : option string }.
End InsuranceInfo.

Module Patient.
Inductive gender_t := male | female | other.
Inductive referral_t := UGD | URJ.
Record t := mk {
  national_mrn : string;
  name : PersonName.t;
  birth_date : option datetime;
  gender : option gender_t;
  phone : option string;
  address : option string;
  categories : list InsuranceInfo.t;
  family_profile : option (gmap string pyval);
  guarantor : option Contact.t;
  emergency_contacts : list Contact.t;
  allergies : list Allergy.t;
  chronic_conditions : list ChronicCondition.t;
  qr_wristband : option string;
  telemed_referral_type : option referral_t;
  telemed_referral_time : option datetime }.
End Patient.

Module TriageEvent.
Record t := mk {
  patient_id : string;
  arrival_mode : option string;
  gcs : option Z;
  vital_signs : gmap string (option float);
  esi_level : option Z;
  critical_flags : list string;
  consent_emergency_protocol : bool;
  notes : option string }.

(** The field constraints [ge=3, le=15] and [ge=1, le=5]. *)
Definition valid (p : t) : Prop :=
  (forall g, gcs p = Some g -> 3 <= g <= 15) /\
  (forall e, esi_level p = Some e -> 1 <= e <= 5).
End TriageEvent.

Module Room.
Inductive zone_t :=
  | Airborne | Droplet | Contact | ICU | NICU | HD
  | Bedah_Elektif | Bedah_Emergensi | Negatif | Positif | Umum.
Inductive tariff_t := VVIP | VIP | kelas_1 | kelas_2 | kelas_3.
Record t := mk {
  code : string;
  zone : zone_t;
  bed_count : Z;
  occupied_beds : Z;
  tariff_class : tariff_t }.
End Room.

Module Admission.
Record t := mk {
  patient_id : string;
  room_code : string;
  bed_number : option Z;
  start : datetime;
  end_ : option datetime;
  risk_movement : option string }.
End Admission.

Module InventoryItem.
Inductive type_t := obat | alat_medis | material.
Record t := mk {
  sku : string;
  name : string;
  type_ : type_t;
  barcode : option string;
  stock : Z;
  sterile_batch : option string }.
End InventoryItem.

(** A stored due date: the [datetime] of the payload, or the [str] made by
    [isoformat()] of a [datetime]. *)
Inductive due_t : Type :=
  | DueDatetime (t : datetime)
  | DueIsoformat (t : datetime).

Module Procedure.
Record t := mk {
  patient_id : string;
  doctor_id : string;
  description : string;
  requires_sterile : bool;
  sterile_batch : option string;
  cssd_return_due : option datetime;
  materials : list (gmap string pyval);
  e_signature : option string;
  iot_devices : list string }.

(** The [dict] made by [model_dump()], whose [cssd_return_due] the
    handler may overwrite with a string. *)
Record data := mk_data {
  d_patient_id : string;
  d_doctor_id : string;
  d_description : string;
  d_requires_sterile : bool;
  d_sterile_batch : option string;
  d_cssd_return_due : option due_t;
  d_materials : list (gmap string pyval);
  d_e_signature : option string;
  d_iot_devices : list string }.

Definition model_dump (p : t) : data :=
  {| d_patient_id := patient_id p;
     d_doctor_id := doctor_id p;
     d_description := description p;
     d_requires_sterile := requires_sterile p;
     d_sterile_batch := sterile_batch p;
     d_cssd_return_due := DueDatetime <$> cssd_return_due p;
     d_materials := materials p;
     d_e_signature := e_signature p;
     d_iot_devices := iot_devices p |}.
End Procedure.

Module LabResult.
Inductive status_t := completed | partial.
Record t := mk {
  order_id : string;
  results : gmap string pyval;
  status : status_t }.
End LabResult.

Module Prescription.
Inductive status_t := draft | validated | dispensed | out_of_stock_external.
Record t := mk {
  patient_id : string;
  items : list (gmap string pyval);
  allergies_checked : bool;
  interactions_checked : bool;
  status : status_t }.
End Prescription.

Module AuditLog.
Record t := mk {
  actor_id : option string;
  action : string;
  entity : string;
  entity_id : option string;
  meta : gmap string pyval }.
End AuditLog.


Module PrescriptionValidateRequest.
Record t := mk { prescription : Prescription.t }.
End PrescriptionValidateRequest.

(** ** The document store

    [db] of [database.py] is a MongoDB database handle. Each collection
    holds the documents of one schema class (the collection name is the
    lowercase of the class name, see the head of [schemas.py]).

    A query value that is a document whose first key starts with [$] is an
    operator document: the store either rejects it (the query then raises
    [OperationFailure]) or reads it as a condition on the field. The query
    language is the store's own, so the store carries its reading of
    operator documents, [operators]; what is fixed here is that [$oid] is
    no operator. *)

Module db.

Inductive collection :=
  | patient | triageevent | room | admission
  | inventoryitem | procedure | labresult | auditlog.

(** The schema of the documents of a collection. *)
Definition model (c : collection) : Type :=
  match c with
  | patient => Patient.t
  | triageevent => TriageEvent.t
  | room => Room.t
  | admission => Admission.t
  | inventoryitem => InventoryItem.t
  | procedure => Procedure.data
  | labresult => LabResult.t
  | auditlog => AuditLog.t
  end.

(** A stored document: its [_id] (written as the string [str(_id)]), its
    ["id"] key when it carries one, and the fields of its schema. *)
Record document (A : Type) := mk_document {
  oid : string;
  id_key : option string;
  fields : A }.
Arguments mk_document {A} _ _ _.
Arguments oid {A} _.
Arguments id_key {A} _.
Arguments fields {A} _.

Record store := mk_store {
  patients : list (document Patient.t);
  triageevents : list (document TriageEvent.t);
  rooms : list (document Room.t);
  admissions : list (document Admission.t);
  inventoryitems : list (document InventoryItem.t);
  procedures : list (document Procedure.data);
  labresults : list (document LabResult.t);
  auditlogs : list (document AuditLog.t);
  next_oid : N;
  operators : list (string * pyval) -> string + (string -> bool) }.

(** [db[c]] *)
Definition coll (c : collection) (s : store) : list (document (model c)) :=
  match c with
  | patient => patients s
  | triageevent => triageevents s
  | room => rooms s
  | admission => admissions s
  | inventoryitem => inventoryitems s
  | procedure => procedures s
  | labresult => labresults s
  | auditlog => auditlogs s
  end.

Definition set_coll (c : collection) : list (document (model c)) -> store -> store :=
  match c with
  | patient => fun l s =>
      mk_store l (triageevents s) (rooms s) (admissions s) (inventoryitems s)
        (procedures s) (labresults s) (auditlogs s) (next_oid s)
        (operators s)
  | triageevent => fun l s =>
      mk_store (patients s) l (rooms s) (admissions s) (inventoryitems s)
        (procedures s) (labresults s) (auditlogs s) (next_oid s)
        (operators s)
  | room => fun l s =>
      mk_store (patients s) (triageevents s) l (admissions s) (inventoryitems s)
        (procedures s) (labresults s) (auditlogs s) (next_oid s)
        (operators s)
  | admission => fun l s =>
      mk_store (patients s) (triageevents s) (rooms s) l (inventoryitems s)
        (procedures s) (labresults s) (auditlogs s) (next_oid s)
        (operators s)
  | inventoryitem => fun l s =>
      mk_store (patients s) (triageevents s) (rooms s) (admissions s) l
        (procedures s) (labresults s) (auditlogs s) (next_oid s)
        (operators s)
  | procedure => fun l s =>
      mk_store (patients s) (triageevents s) (rooms s) (admissions s)
        (inventoryitems s) l (labresults s) (auditlogs s) (next_oid s)
        (operators s)
  | labresult => fun l s =>
      mk_store (patients s) (triageevents s) (rooms s) (admissions s)
        (inventoryitems s) (procedures s) l (auditlogs s) (next_oid s)
        (operators s)
  | auditlog => fun l s =>
      mk_store (patients s) (triageevents s) (rooms s) (admissions s)
        (inventoryitems s) (procedures s) (labresults s) l (next_oid s)
        (operators s)
  end.

(** A reading of operator documents that knows the six comparisons with a
    string, one to a document, and rejects every other document. *)
Definition comparisons (d : list (string * pyval)) : string + (string -> bool) :=
  match d with
  | [(op, PStr x)] =>
      if String.eqb op "$eq" then inr (fun v => String.eqb v x)
      else if String.eqb op "$ne" then inr (fun v => negb (String.eqb v x))
      else if String.eqb op "$gt" then inr (fun v => String.ltb x v)
      else if String.eqb op "$gte" then inr (fun v => String.leb x v)
      else if String.eqb op "$lt" then inr (fun v => String.ltb v x)
      else if String.eqb op "$lte" then inr (fun v => String.leb v x)
      else inl ("unknown operator: " +:+ op)
  | (op, _) :: _ => inl ("unknown operator: " +:+ op)
  | [] => inl "unknown operator"
  end.

Definition empty : store := mk_store [] [] [] [] [] [] [] [] 0%N comparisons.

End db.

(** ** Handlers run in a state-and-exception monad

    A handler reads and writes the store and either returns a value or
    raises. The writes made before a [raise] stay in the store: nothing
    rolls them back. *)

Inductive exn : Type :=
  | HTTPException (status_code : Z) (detail : string)
  | Exception (msg : string).

Inductive result (A : Type) : Type :=
  | Return (a : A)
  | Raise (e : exn).
Arguments Return {A} _.
Arguments Raise {A} _.

Definition M (A : Type) : Type := db.store -> result A * db.store.

Definition ret {A} (a : A) : M A := fun s => (Return a, s).

Definition raise {A} (e : exn) : M A := fun s => (Raise e, s).

Definition bind {A B} (m : M A) (k : A -> M B) : M B :=
  fun s =>
    match m s with
    | (Return a, s') => k a s'
    | (Raise e, s') => (Raise e, s')
    end.

Notation "'let*' x ':=' m 'in' k" := (bind m (fun x => k))
  (at level 10, x name, m at level 100, k at level 200, only parsing).

(** ** Collection operations (pymongo) *)

(** The first element of [l] that satisfies [q]. *)
Definition first_match {A} (q : A -> bool) (l : list A) : option A :=
  List.find q l.

(** [l] with its first element that satisfies [q] replaced by its image
    under [f]; [l] itself when none does. *)
Fixpoint update_first {A} (q : A -> bool) (f : A -> A) (l : list A) : list A :=
  match l with
  | [] => []
  | x :: l' => if q x then f x :: l' else x :: update_first q f l'
  end.

(** [db[c].find_one(q)] *)
Definition find_one (c : db.collection) (q : db.document (db.model c) -> bool)
  : M (option (db.document (db.model c))) :=
  fun s => (Return (first_match q (db.coll c s)), s).

(** [db[c].find({})] *)
Definition find_all (c : db.collection) : M (list (db.document (db.model c))) :=
  fun s => (Return (db.coll c s), s).

(** [db[c].update_one(q, u)] *)
Definition update_one (c : db.collection) (q : db.document (db.model c) -> bool)
    (u : db.document (db.model c) -> db.document (db.model c)) : M unit :=
  fun s => (Return tt, db.set_coll c (update_first q u (db.coll c s)) s).

(** Query [{"code": code}] on rooms. *)
Definition by_code (code : string) (d : db.document Room.t) : bool :=
  String.eqb (Room.code (db.fields d)) code.

(** Query [{"_id": id}]: the document whose [_id] is written [id]. *)
Definition by_oid {A} (id : string) (d : db.document A) : bool :=
  String.eqb (db.oid d) id.

(** Query [{"id": id}]: the documents that carry an ["id"] key equal to
    [id]. *)
Definition by_id_key {A} (id : string) (d : db.document A) : bool :=
  match db.id_key d with
  | Some i => String.eqb i id
  | None => false
  end.

(** [k.startswith("$")] *)
Definition is_operator (k : string) : bool := String.prefix "$" k.

(** How the store [s] reads the value [v] of a query [{field: v}] on a field
    that holds a string: the strings that match, or the text of the
    [OperationFailure] it raises. A string matches itself. An operator
    document is rejected when it starts with [$oid], which is the Extended
    JSON spelling of an identifier and no query operator, and is read by
    the store's [operators] otherwise. Any other value (null, a number, a
    boolean, a list, a document without operator) is compared as a whole
    and equals no string. *)
Definition value_filter (s : db.store) (v : pyval) : string + (string -> bool) :=
  match v with
  | PStr x => inr (fun y => String.eqb y x)
  | PDict ((k, a) :: d) =>
      if String.eqb k "$oid" then inl "unknown operator: $oid"
      else if is_operator k then db.operators s ((k, a) :: d)
      else inr (fun _ => false)
  | _ => inr (fun _ => false)
  end.

(** [db[c].find_one({field: v})] for a string-valued [field]. *)
Definition find_one_by (c : db.collection)
    (field : db.document (db.model c) -> string) (v : pyval)
  : M (option (db.document (db.model c))) :=
  fun s =>
    match value_filter s v with
    | inr matches =>
        (Return (first_match (fun d => matches (field d)) (db.coll c s)), s)
    | inl msg => (Raise (Exception msg), s)
    end.

(** The field [sku] of an inventory document. *)
Definition sku_of (d : db.document InventoryItem.t) : string :=
  InventoryItem.sku (db.fields d).

(** Update [{"$inc": {"occupied_beds": k}}]. *)
Definition inc_occupied_beds (k : Z) (d : db.document Room.t) : db.document Room.t :=
  let r := db.fields d in
  db.mk_document (db.oid d) (db.id_key d)
    (Room.mk (Room.code r) (Room.zone r) (Room.bed_count r)
       (Room.occupied_beds r + k) (Room.tariff_class r)).

(** Update [{"$set": {"end": t}}]. *)
Definition set_end (t : datetime) (d : db.document Admission.t)
  : db.document Admission.t :=
  let a := db.fields d in
  db.mk_document (db.oid d) (db.id_key d)
    (Admission.mk (Admission.patient_id a) (Admission.room_code a)
       (Admission.bed_number a) (Admission.start a) (Some t)
       (Admission.risk_movement a)).

(** ** database.py *)

Module database.

(** [str(ObjectId)] of the [n]-th generated identifier. *)
Definition gen_oid (n : N) : string := pretty n.

(** Modelled from the spec: [create_document] of [database.py], which is
    not among the sources. Each record is persisted on its own with a
    generated identifier, and the identifier is returned to the caller:
    the document [data] is appended to collection [c] under a fresh [_id],
    with no other change to the store. *)
Definition create_document (c : db.collection) (data : db.model c) : M string :=
  fun s =>
    let id := gen_oid (db.next_oid s) in
    let s' := db.set_coll c (db.coll c s ++ [db.mk_document id None data]) s in
    (Return id,
     db.mk_store (db.patients s') (db.triageevents s') (db.rooms s')
       (db.admissions s') (db.inventoryitems s') (db.procedures s')
       (db.labresults s') (db.auditlogs s') (N.succ (db.next_oid s))
       (db.operators s)).

(** A [create_document] whose writes to the collections in [down] raise
    (the store rejects or cannot be reached) and change nothing. *)
Definition create_document_failing (down : db.collection -> bool)
    (c : db.collection) (data : db.model c) : M string :=
  if down c then raise (Exception "Database not available")
  else create_document c data.

End database.

(** ** main.py *)

Module main.

Section handlers.

(** [create_document] is imported from [database.py]; the handlers are
    written against any implementation of it. *)
Variable create_document : forall c : db.collection, db.model c -> M string.

(** [AuditLog(action=.., entity=.., entity_id=.., meta=..)] *)
Definition audit (action entity : string) (entity_id : string)
    (meta : gmap string pyval) : AuditLog.t :=
  AuditLog.mk None action entity (Some entity_id) meta.

(** [POST /patients] *)
Definition create_patient (payload : Patient.t) : M (gmap string pyval) :=
  let* pid := create_document db.patient payload in
  let* _ := create_document db.auditlog
    (audit "create" "patient" pid {[ "source" := PStr "api" ]}) in
  ret {[ "id" := PStr pid ]}.

(** [gcs is not None and gcs <= 8] *)
Definition gcs_critical (gcs : option Z) : bool :=
  match gcs with
  | Some g => g <=? 8
  | None => false
  end.

(** [vital_signs.get("spo2") if vital_signs else None] *)
Definition get_spo2 (vital_signs : gmap string (option float)) : option float :=
  if Nat.eqb (size vital_signs) 0 then None
  else mjoin (vital_signs !! "spo2").

(** [spo2 is not None and spo2 < 90] *)
Definition spo2_critical (spo2 : option float) : bool :=
  match spo2 with
  | Some v => float_lt_int v 90
  | None => false
  end.

(** The two assignments [critical = True] after [critical = False]. *)
Definition is_critical (payload : TriageEvent.t) : bool :=
  let critical := false in
  let critical := if gcs_critical (TriageEvent.gcs payload) then true else critical in
  let spo2 := get_spo2 (TriageEvent.vital_signs payload) in
  let critical := if spo2_critical spo2 then true else critical in
  critical.

(** [data["consent_emergency_protocol"] = True] followed by
    [data.setdefault("critical_flags", []).append(..)]; the key is always
    in the dump, so the flag goes to the end of the list it has. *)
Definition auto_consent (data : TriageEvent.t) : TriageEvent.t :=
  TriageEvent.mk (TriageEvent.patient_id data) (TriageEvent.arrival_mode data)
    (TriageEvent.gcs data) (TriageEvent.vital_signs data)
    (TriageEvent.esi_level data)
    (TriageEvent.critical_flags data ++ ["auto_consent_emergency_protocol"])
    true (TriageEvent.notes data).

(** The document the triage handler persists. *)
Definition triage_data (payload : TriageEvent.t) : TriageEvent.t :=
  let data := payload in
  if is_critical payload && negb (TriageEvent.consent_emergency_protocol payload)
  then auto_consent data
  else data.

(** [POST /triage] *)
Definition triage (payload : TriageEvent.t) : M (gmap string pyval) :=
  let critical := is_critical payload in
  let data := triage_data payload in
  let* tid := create_document db.triageevent data in
  let* _ := create_document db.auditlog (audit "create" "triageevent" tid ∅) in
  ret {[ "id" := PStr tid;
         "critical" := PBool critical;
         "consent" := PBool (TriageEvent.consent_emergency_protocol data) ]}.

(** [POST /admissions] *)
Definition create_admission (payload : Admission.t) : M (gmap string pyval) :=
  let* room := find_one db.room (by_code (Admission.room_code payload)) in
  match room with
  | None => raise (HTTPException 404 "Room not found")
  | Some room =>
      if Room.occupied_beds (db.fields room) >=? Room.bed_count (db.fields room)
      then raise (HTTPException 409 "No available bed")
      else
        let* aid := create_document db.admission payload in
        let* _ := update_one db.room (by_code (Admission.room_code payload))
          (inc_occupied_beds 1) in
        let* _ := create_document db.auditlog (audit "create" "admission" aid ∅) in
        ret {[ "id" := PStr aid ]}
  end.

(** [POST /admissions/{admission_id}/discharge]; [now] is the reading of
    [datetime.now(timezone.utc)]. The first statement of the source binds
    [adm] to [None] (its other branch is under [if False]) and is never
    used. The first query is [{"_id": {"$oid": admission_id}}]. *)
Definition discharge (admission_id : string) (now : datetime)
  : M (gmap string pyval) :=
  let* admission := find_one_by db.admission db.oid
                      (PDict [("$oid", PStr admission_id)]) in
  let* admission := match admission with
               | Some _ => ret admission
               | None => find_one db.admission (by_id_key admission_id)
               end in
  match admission with
  | None => raise (HTTPException 404 "Admission not found")
  | Some admission =>
      let* _ := update_one db.room (by_code (Admission.room_code (db.fields admission)))
        (inc_occupied_beds (-1)) in
      let* _ := update_one db.admission (by_oid (db.oid admission)) (set_end now) in
      let* _ := create_document db.auditlog
        (audit "update" "admission" admission_id {[ "op" := PStr "discharge" ]}) in
      ret {[ "status" := PStr "ok" ]}
  end.

(** [not payload.sterile_batch]: [None] and the empty string are falsy. *)
Definition no_batch (sterile_batch : option string) : bool :=
  match sterile_batch with
  | None => true
  | Some b => String.eqb b ""
  end.

(** [f"AUTO-{int(t.timestamp())}"]: whole seconds, truncated. The digits
    are those of the code as long as the binary64 [timestamp()] keeps the
    microseconds apart, that is for clocks before 2^34 seconds. *)
Definition auto_batch (t : datetime) : string :=
  "AUTO-" +:+ pretty (Z.quot t 1000000).

Definition with_sterile (data : Procedure.data) (batch : string) (due : due_t)
  : Procedure.data :=
  Procedure.mk_data (Procedure.d_patient_id data) (Procedure.d_doctor_id data)
    (Procedure.d_description data) (Procedure.d_requires_sterile data)
    (Some batch) (Some due)
    (Procedure.d_materials data) (Procedure.d_e_signature data)
    (Procedure.d_iot_devices data).

(** The document the procedure handler persists; [now_local] and [now_utc]
    are the readings of [datetime.now()] and [datetime.now(timezone.utc)],
    in this order. *)
Definition procedure_data (payload : Procedure.t) (now_local now_utc : datetime)
  : Procedure.data :=
  let data := Procedure.model_dump payload in
  if Procedure.requires_sterile payload && no_batch (Procedure.sterile_batch payload)
  then with_sterile data (auto_batch now_local)
         (DueIsoformat (now_utc + timedelta_hours 8))
  else data.

(** [POST /procedures] *)
Definition create_procedure (payload : Procedure.t) (now_local now_utc : datetime)
  : M (gmap string pyval) :=
  let data := procedure_data payload now_local now_utc in
  let* pid := create_document db.procedure data in
  let* _ := create_document db.auditlog (audit "create" "procedure" pid ∅) in
  ret {[ "id" := PStr pid ]}.

(** [it.get("drug") or it.get("sku")] *)
Definition item_sku (it : gmap string pyval) : pyval :=
  py_or (dict_get it "drug") (dict_get it "sku").

(** [not inv or inv.get("stock", 0) <= 0] *)
Definition unavailable (inv : option (db.document InventoryItem.t)) : bool :=
  match inv with
  | None => true
  | Some inv => InventoryItem.stock (db.fields inv) <=? 0
  end.

(** The loop [for it in items] with its accumulator [out_of_stock]. *)
Fixpoint stock_loop (items : list (gmap string pyval)) (out_of_stock : list pyval)
  : M (list pyval) :=
  match items with
  | [] => ret out_of_stock
  | it :: items' =>
      let sku := item_sku it in
      let* inv := find_one_by db.inventoryitem sku_of sku in
      stock_loop items'
        (if unavailable inv then out_of_stock ++ [sku] else out_of_stock)
  end.

(** [POST /pharmacy/validate]. The [allergen_set] of the source is the
    empty set (its other branch is under [if False]) and is never used. *)
Definition validate_prescription (req : PrescriptionValidateRequest.t)
  : M (gmap string pyval) :=
  let p := PrescriptionValidateRequest.prescription req in
  let items := Prescription.items p in
  let* out_of_stock := stock_loop items [] in
  let status := match out_of_stock with
                | [] => "validated"
                | _ => "out_of_stock_external"
                end in
  ret {[ "status" := PStr status; "out_of_stock" := PList out_of_stock ]}.

(** [POST /labs/external/callback] *)
Definition external_lab_result (payload : LabResult.t) : M (gmap string pyval) :=
  let* rid := create_document db.labresult payload in
  let* _ := create_document db.auditlog
    (audit "create" "labresult" rid {[ "source" := PStr "external" ]}) in
  ret {[ "id" := PStr rid ]}.

(** The loop [for r in db["room"].find({})] with its two accumulators. *)
Definition bor_totals (rooms : list (db.document Room.t)) : Z * Z :=
  fold_left
    (fun acc r =>
       (fst acc + Room.bed_count (db.fields r),
        snd acc + Room.occupied_beds (db.fields r)))
    rooms (0, 0).

(** [(occupied / total_beds * 100) if total_beds else 0] *)
Definition bor_rate (occupied total_beds : Z) : pyval :=
  if negb (total_beds =? 0)
  then PFloat (int_truediv occupied total_beds * float_of_Z 100)%float
  else PInt 0.

(** [GET /dashboard/bor] *)
Definition dashboard_bor : M (gmap string pyval) :=
  let* rooms := find_all db.room in
  let '(total_beds, occupied) := bor_totals rooms in
  ret {[ "total_beds" := PInt total_beds;
         "occupied" := PInt occupied;
         "bor" := bor_rate occupied total_beds ]}.

End handlers.

(** What [GET /test] reads: the [name] attribute of the database handle,
    which can be missing or raise when read, and the outcome of
    [list_collection_names()], which returns the names or raises; an
    exception is given by its text [str(e)]. *)
Inductive name_attr : Type :=
  | NoName
  | Name (n : string)
  | NameRaises (msg : string).

Record handle := mk_handle {
  name : name_attr;
  list_collection_names : string + list string }.

(** [s[:n]] on a string whose characters are single bytes. *)
Definition str_take (n : nat) (s : string) : string := String.substring 0 n s.

(** [response], as initialised at the top of [test_database]. *)
Definition initial_response : gmap string pyval :=
  {[ "backend" := PStr "✅ Running";
     "database" := PStr "❌ Not Available";
     "database_url" := PNone;
     "database_name" := PNone;
     "connection_status" := PStr "Not Connected";
     "collections" := PList [] ]}.

(** The inner [try]: list the collections, keep the first 20. *)
Definition list_collections (h : handle) (response : gmap string pyval)
  : gmap string pyval :=
  match list_collection_names h with
  | inr collections =>
      let response := <[ "collections" := PList (PStr <$> take 20 collections) ]> response in
      <[ "database" := PStr "✅ Connected & Working" ]> response
  | inl e =>
      <[ "database" := PStr ("⚠️ Connected but Error: " +:+ str_take 80 e) ]> response
  end.

(** [GET /test]; [db] is the database handle or [None], [database_url] is
    [os.getenv("DATABASE_URL")]. Reading [name] is the only step of the
    outer [try] that can raise outside the inner one. *)
Definition test_database (db : option handle) (database_url : option string)
  : gmap string pyval :=
  let response := initial_response in
  match db with
  | Some h =>
      let response := <[ "database" := PStr "✅ Available" ]> response in
      let url_set := match database_url with
                     | Some u => negb (String.eqb u "")
                     | None => false
                     end in
      let response :=
        <[ "database_url" := PStr (if url_set then "✅ Set" else "❌ Not Set") ]>
          response in
      match name h with
      | NameRaises e =>
          <[ "database" := PStr ("❌ Error: " +:+ str_take 80 e) ]> response
      | attr =>
          let database_name := match attr with
                               | Name n => n
                               | _ => "✅ Connected"
                               end in
          let response := <[ "database_name" := PStr database_name ]> response in
          let response := <[ "connection_status" := PStr "Connected" ]> response in
          list_collections h response
      end
  | None =>
      <[ "database" := PStr "⚠️ Available but not initialized" ]> response
  end.

End main.

(** ** Request sequences on the admission ledger *)

Inductive request : Type :=
  | Admit (payload : Admission.t)
  | Discharge (admission_id : string) (now : datetime).

Definition handle (rq : request) : M (gmap string pyval) :=
  match rq with
  | Admit payload => main.create_admission database.create_document payload
  | Discharge admission_id now =>
      main.discharge database.create_document admission_id now
  end.

(** The store after the requests [rqs], served one after the other; a
    request that raises leaves the store as its handler left it. *)
Fixpoint run (rqs : list request) (s : db.store) : db.store :=
  match rqs with
  | [] => s
  | rq :: rqs' => run rqs' (snd (handle rq s))
  end.

(** The invariant of the data model: [0 <= occupied_beds <= bed_count] in
    every room. *)
Definition beds_in_range (s : db.store) : Prop :=
  forall d, In d (db.rooms s) ->
    0 <= Room.occupied_beds (db.fields d) <= Room.bed_count (db.fields d).

Definition beds_at_most_count (s : db.store) : Prop :=
  forall d, In d (db.rooms s) ->
    Room.occupied_beds (db.fields d) <= Room.bed_count (db.fields d).

Definition Zsum (l : list Z) : Z := foldr Z.add 0 l.

(** ** Sample data *)

Module sample.

Definition room_A1 (occupied : Z) : db.document Room.t :=
  db.mk_document "r-A1" None (Room.mk "A1" Room.Umum 1 occupied Room.kelas_3).

Definition room_B2 : db.document Room.t :=
  db.mk_document "r-B2" None (Room.mk "B2" Room.ICU 4 2 Room.VIP).

(** One room, one bed, nobody in it. *)
Definition ward : db.store :=
  db.mk_store [] [] [room_A1 0] [] [] [] [] [] 0%N db.comparisons.

Definition full_ward : db.store :=
  db.mk_store [] [] [room_B2; room_A1 1] [] [] [] [] [] 0%N db.comparisons.

Definition admission (room_code : string) (end_ : option datetime) : Admission.t :=
  Admission.mk "patient-1" room_code None 1000 end_ None.

Definition stay : db.document Admission.t :=
  db.mk_document "a-1" None (admission "B2" None).

Definition ward_with_stay : db.store :=
  db.mk_store [] [] [room_B2; room_A1 1] [stay] [] [] [] [] 7%N db.comparisons.

Definition patient : Patient.t :=
  Patient.mk "MRN-1" (PersonName.mk "Siti" None None) None None None None
    [] None None [] [] [] None None None.

Definition triage_event (gcs : option Z) (spo2 : float) (consent : bool)
  : TriageEvent.t :=
  TriageEvent.mk "patient-1" None gcs {[ "spo2" := Some spo2 ]} None []
    consent None.

Definition procedure (requires_sterile : bool) (batch : option string)
    (due : option datetime) : Procedure.t :=
  Procedure.mk "patient-1" "doctor-1" "appendectomy" requires_sterile batch due
    [] None [].

Definition item (sku stock : _) : db.document InventoryItem.t :=
  db.mk_document ("i-" +:+ sku) None
    (InventoryItem.mk sku sku InventoryItem.obat None stock None).

Definition pharmacy : db.store :=
  db.mk_store [] [] [] [] [item "X" 0; item "Y" 5] [] [] [] 0%N db.comparisons.

Definition request (skus : list string) : PrescriptionValidateRequest.t :=
  PrescriptionValidateRequest.mk
    (Prescription.mk "patient-1" ((fun k => {[ "sku" := PStr k ]}) <$> skus)
       false false Prescription.draft).

Definition lab_result : LabResult.t :=
  LabResult.mk "order-1" {[ "hb" := PFloat 13.5 ]} LabResult.completed.

(** The audit collection rejects writes; the others accept them. *)
Definition audit_down (c : db.collection) : bool :=
  match c with
  | db.auditlog => true
  | _ => false
  end.

End sample.

(** ** The routes

    The requests the application serves, each with the clock readings its
    handler takes, and their dispatch as in the [@app.post] and [@app.get]
    decorators, over the [create_document] of [database.py]. *)

Inductive endpoint : Type :=
  | PostPatients (payload : Patient.t)
  | PostTriage (payload : TriageEvent.t)
  | PostAdmissions (payload : Admission.t)
  | PostDischarge (admission_id : string) (now : datetime)
  | PostProcedures (payload : Procedure.t) (now_local now_utc : datetime)
  | PostPharmacyValidate (req : PrescriptionValidateRequest.t)
  | PostLabsCallback (payload : LabResult.t)
  | GetDashboardBor.

Definition serve (e : endpoint) : M (gmap string pyval) :=
  match e with
  | PostPatients payload => main.create_patient database.create_document payload
  | PostTriage payload => main.triage database.create_document payload
  | PostAdmissions payload =>
      main.create_admission database.create_document payload
  | PostDischarge admission_id now =>
      main.discharge database.create_document admission_id now
  | PostProcedures payload now_local now_utc =>
      main.create_procedure database.create_document payload now_local now_utc
  | PostPharmacyValidate req => main.validate_prescription req
  | PostLabsCallback payload =>
      main.external_lab_result database.create_document payload
  | GetDashboardBor => main.dashboard_bor
  end.

(** The endpoints that record an audit entry. *)
Definition mutating (e : endpoint) : bool :=
  match e with
  | PostPharmacyValidate _ | GetDashboardBor => false
  | _ => true
  end.

(** What identifies a room apart from its occupancy. *)
Definition room_identity (d : db.document Room.t)
  : string * option string * string * Room.zone_t * Z * Room.tariff_t :=
  (db.oid d, db.id_key d, Room.code (db.fields d), Room.zone (db.fields d),
   Room.bed_count (db.fields d), Room.tariff_class (db.fields d)).

(** An admission apart from its [end]. *)
Definition admission_identity (d : db.document Admission.t)
  : string * option string * string * string * option Z * datetime * option string :=
  (db.oid d, db.id_key d, Admission.patient_id (db.fields d),
   Admission.room_code (db.fields d), Admission.bed_number (db.fields d),
   Admission.start (db.fields d), Admission.risk_movement (db.fields d)).

(** A request that differs from [req] in its items only. *)
Definition with_items (req : PrescriptionValidateRequest.t)
    (items : list (gmap string pyval)) : PrescriptionValidateRequest.t :=
  let p := PrescriptionValidateRequest.prescription req in
  PrescriptionValidateRequest.mk
    (Prescription.mk (Prescription.patient_id p) items
       (Prescription.allergies_checked p) (Prescription.interactions_checked p)
       (Prescription.status p)).

(** The store [s] accepts the query [{"sku": v}]: it does not raise. *)
Definition accepted (s : db.store) (v : pyval) : Prop :=
  exists matches, value_filter s v = inr matches.

(** Whether the stock loop reports the item [it] on the store [s]: the
    query for its identifier is accepted and returns no record, or a record
    with no stock. *)
Definition reported (s : db.store) (it : gmap string pyval) : bool :=
  match value_filter s (main.item_sku it) with
  | inr matches =>
      main.unavailable
        (first_match (fun d => matches (sku_of d)) (db.inventoryitems s))
  | inl _ => false
  end.

(** * Properties *)

(** ** Lists and the store *)

Lemma first_match_none {A} (q : A -> bool) (l : list A) :
  first_match q l = None <-> (forall x, In x l -> q x = false).
Proof.
  unfold first_match. split.
  - apply find_none.
  - induction l as [|x l IH]; intros H; [reflexivity|].
    simpl. rewrite (H x (or_introl eq_refl)).
    apply IH. intros y Hy. apply H. now right.
Qed.

Lemma first_match_app {A} (q : A -> bool) (before after : list A) (x : A) :
  (forall y, In y before -> q y = false) ->
  q x = true ->
  first_match q (before ++ x :: after) = Some x.
Proof.
  unfold first_match. intros Hb Hx.
  induction before as [|y before IH]; simpl.
  - now rewrite Hx.
  - rewrite (Hb y (or_introl eq_refl)). apply IH.
    intros z Hz. apply Hb. now right.
Qed.

Lemma first_match_split {A} (q : A -> bool) (l : list A) (x : A) :
  first_match q l = Some x ->
  exists before after,
    l = before ++ x :: after /\ (forall y, In y before -> q y = false) /\ q x = true.
Proof.
  unfold first_match.
  induction l as [|y l IH]; simpl; [discriminate|].
  destruct (q y) eqn:Hy.
  - intros [= ->]. exists [], l. repeat split; [|exact Hy]. intros ? [].
  - intros H. destruct (IH H) as (before & after & -> & Hb & Hx).
    exists (y :: before), after. repeat split; [|exact Hx].
    intros z [<-|Hz]; [exact Hy|now apply Hb].
Qed.

Lemma update_first_app {A} (q : A -> bool) (f : A -> A) (before after : list A) (x : A) :
  (forall y, In y before -> q y = false) ->
  q x = true ->
  update_first q f (before ++ x :: after) = before ++ f x :: after.
Proof.
  intros Hb Hx.
  induction before as [|y before IH]; simpl.
  - now rewrite Hx.
  - rewrite (Hb y (or_introl eq_refl)). f_equal. apply IH.
    intros z Hz. apply Hb. now right.
Qed.

Lemma by_code_true code d :
  by_code code d = true <-> Room.code (db.fields d) = code.
Proof. unfold by_code. apply String.eqb_eq. Qed.

Lemma by_code_false code d :
  by_code code d = false <-> Room.code (db.fields d) <> code.
Proof. unfold by_code. apply String.eqb_neq. Qed.

(** ** The admission ledger *)

Section refusals.

Variable create_document : forall c : db.collection, db.model c -> M string.

Lemma admit_no_room payload s :
  first_match (by_code (Admission.room_code payload)) (db.rooms s) = None ->
  main.create_admission create_document payload s
  = (Raise (HTTPException 404 "Room not found"), s).
Proof.
  intros H. unfold main.create_admission, bind, find_one. simpl.
  now rewrite H.
Qed.

Lemma admit_no_bed payload s room :
  first_match (by_code (Admission.room_code payload)) (db.rooms s) = Some room ->
  Room.occupied_beds (db.fields room) >= Room.bed_count (db.fields room) ->
  main.create_admission create_document payload s
  = (Raise (HTTPException 409 "No available bed"), s).
Proof.
  intros H Hfull. unfold main.create_admission, bind, find_one. simpl.
  rewrite H.
  destruct (Z.geb_spec (Room.occupied_beds (db.fields room))
              (Room.bed_count (db.fields room))); [reflexivity|lia].
Qed.

End refusals.

Lemma admit_free_bed payload s room :
  first_match (by_code (Admission.room_code payload)) (db.rooms s) = Some room ->
  Room.occupied_beds (db.fields room) < Room.bed_count (db.fields room) ->
  main.create_admission database.create_document payload s
  = (Return {[ "id" := PStr (database.gen_oid (db.next_oid s)) ]},
     db.mk_store (db.patients s) (db.triageevents s)
       (update_first (by_code (Admission.room_code payload)) (inc_occupied_beds 1)
          (db.rooms s))
       (db.admissions s
          ++ [db.mk_document (database.gen_oid (db.next_oid s)) None payload])
       (db.inventoryitems s) (db.procedures s) (db.labresults s)
       (db.auditlogs s
          ++ [db.mk_document (database.gen_oid (N.succ (db.next_oid s))) None
                (main.audit "create" "admission"
                   (database.gen_oid (db.next_oid s)) ∅)])
       (N.succ (N.succ (db.next_oid s))) (db.operators s)).
Proof.
  intros H Hfree. unfold main.create_admission, bind, find_one. simpl.
  rewrite H.
  destruct (Z.geb_spec (Room.occupied_beds (db.fields room))
              (Room.bed_count (db.fields room))); [lia|reflexivity].
Qed.

(** C3. [POST /admissions] fails with 404 when no room has the payload's
    [room_code], and with 409 when the room with that code has
    [occupied_beds >= bed_count]. In both cases the store is left exactly as
    it was: no admission is created and no bed count changes. This holds
    for every implementation of [create_document], which is not called. *)
Theorem admit_failures
    (create_document : forall c : db.collection, db.model c -> M string)
    (payload : Admission.t) (s : db.store) :
  ((forall d, In d (db.rooms s) ->
      Room.code (db.fields d) <> Admission.room_code payload) ->
   main.create_admission create_document payload s
   = (Raise (HTTPException 404 "Room not found"), s))
  /\
  (forall before room after,
     db.rooms s = before ++ room :: after ->
     (forall d, In d before ->
        Room.code (db.fields d) <> Admission.room_code payload) ->
     Room.code (db.fields room) = Admission.room_code payload ->
     Room.occupied_beds (db.fields room) >= Room.bed_count (db.fields room) ->
     main.create_admission create_document payload s
     = (Raise (HTTPException 409 "No available bed"), s)).
Proof.
  split.
  - intros Hnone. apply admit_no_room. apply first_match_none.
    intros d Hd. apply by_code_false. now apply Hnone.
  - intros before room after Hrooms Hbefore Hroom Hfull.
    apply admit_no_bed with (room := room); [|exact Hfull].
    rewrite Hrooms. apply first_match_app.
    + intros d Hd. apply by_code_false. now apply Hbefore.
    + now apply by_code_true.
Qed.

Lemma admit_failures_witness :
  main.create_admission database.create_document (sample.admission "Z9" None)
    sample.full_ward
  = (Raise (HTTPException 404 "Room not found"), sample.full_ward)
  /\
  main.create_admission database.create_document (sample.admission "A1" None)
    sample.full_ward
  = (Raise (HTTPException 409 "No available bed"), sample.full_ward).
Proof.
  split.
  - apply (proj1 (admit_failures database.create_document
                    (sample.admission "Z9" None) sample.full_ward)).
    intros d [<-|[<-|[]]]; simpl; discriminate.
  - apply (proj2 (admit_failures database.create_document
                    (sample.admission "A1" None) sample.full_ward)
             [sample.room_B2] (sample.room_A1 1) []).
    + reflexivity.
    + intros d [<-|[]]; simpl; discriminate.
    + reflexivity.
    + simpl; lia.
Defined.

(** C4, as stated, fails: the stored admission carries the [end] of the
    payload, which need not be null. Here a free bed is taken by an
    admission whose payload has [end = 5000]; the one admission created has
    that [end]. *)
Lemma admit_keeps_payload_end :
  let payload := sample.admission "A1" (Some 5000) in
  let s' := snd (main.create_admission database.create_document payload sample.ward) in
  first_match (by_code "A1") (db.rooms sample.ward) = Some (sample.room_A1 0)
  /\ Room.occupied_beds (db.fields (sample.room_A1 0))
     < Room.bed_count (db.fields (sample.room_A1 0))
  /\ db.admissions sample.ward = []
  /\ ~ (exists d, db.admissions s' = [d] /\ Admission.end_ (db.fields d) = None).
Proof.
  repeat split; try reflexivity.
  intros (d & Hd & Hend). vm_compute in Hd. injection Hd as <-.
  discriminate Hend.
Qed.

(** C4, amended. When the room with the payload's [room_code] has
    [occupied_beds < bed_count], [POST /admissions] returns the new
    identifier and: exactly one admission is appended, holding the payload
    as given (so its [end] is null when the payload has none); the matched
    room's [occupied_beds] grows by exactly 1, its other fields and every
    other room staying as they were; one audit entry is appended; the
    other collections are untouched. *)
Theorem admit_success (payload : Admission.t) (s : db.store)
    (before after : list (db.document Room.t)) (room : db.document Room.t) :
  db.rooms s = before ++ room :: after ->
  (forall d, In d before ->
     Room.code (db.fields d) <> Admission.room_code payload) ->
  Room.code (db.fields room) = Admission.room_code payload ->
  Room.occupied_beds (db.fields room) < Room.bed_count (db.fields room) ->
  exists aid lid s',
    main.create_admission database.create_document payload s
    = (Return {[ "id" := PStr aid ]}, s')
    /\ db.admissions s' = db.admissions s ++ [db.mk_document aid None payload]
    /\ (Admission.end_ payload = None ->
        forall d, In d (db.admissions s') -> ~ In d (db.admissions s) ->
          Admission.end_ (db.fields d) = None)
    /\ db.rooms s'
       = before
         ++ db.mk_document (db.oid room) (db.id_key room)
              (Room.mk (Room.code (db.fields room)) (Room.zone (db.fields room))
                 (Room.bed_count (db.fields room))
                 (Room.occupied_beds (db.fields room) + 1)
                 (Room.tariff_class (db.fields room)))
         :: after
    /\ db.auditlogs s'
       = db.auditlogs s
         ++ [db.mk_document lid None (main.audit "create" "admission" aid ∅)]
    /\ db.patients s' = db.patients s
    /\ db.triageevents s' = db.triageevents s
    /\ db.inventoryitems s' = db.inventoryitems s
    /\ db.procedures s' = db.procedures s
    /\ db.labresults s' = db.labresults s.
Proof.
  intros Hrooms Hbefore Hroom Hfree.
  assert (Hq : forall d, In d before ->
                 by_code (Admission.room_code payload) d = false).
  { intros d Hd. apply by_code_false. now apply Hbefore. }
  assert (Hr : by_code (Admission.room_code payload) room = true).
  { now apply by_code_true. }
  eexists _, _, _. split.
  - apply admit_free_bed with (room := room); [|exact Hfree].
    rewrite Hrooms. now apply first_match_app.
  - simpl. split; [reflexivity|]. split.
    { intros Hend d Hin Hnew. apply in_app_or in Hin as [Hin|[<-|[]]].
      - contradiction.
      - exact Hend. }
    split.
    { rewrite Hrooms.
      now rewrite (update_first_app _ (inc_occupied_beds 1) before after room Hq Hr). }
    repeat (split; [reflexivity|]). reflexivity.
Qed.

Lemma admit_success_witness :
  exists aid lid s',
    main.create_admission database.create_document (sample.admission "A1" None)
      sample.ward
    = (Return {[ "id" := PStr aid ]}, s')
    /\ db.admissions s' = [db.mk_document aid None (sample.admission "A1" None)]
    /\ db.rooms s' = [sample.room_A1 1]
    /\ db.auditlogs s'
       = [db.mk_document lid None (main.audit "create" "admission" aid ∅)].
Proof.
  destruct (admit_success (sample.admission "A1" None) sample.ward
              [] [] (sample.room_A1 0)) as (aid & lid & s' & H).
  - reflexivity.
  - intros d [].
  - reflexivity.
  - simpl; lia.
  - exists aid, lid, s'. tauto.
Defined.

(** ** Discharge *)

(** The first query of [discharge] is an operator document that starts
    with [$oid]: the store rejects it, whatever it holds, so the handler
    raises there and nothing after it runs. *)
Lemma discharge_raises
    (create_document : forall c : db.collection, db.model c -> M string)
    (admission_id : string) (now : datetime) (s : db.store) :
  main.discharge create_document admission_id now s
  = (Raise (Exception "unknown operator: $oid"), s).
Proof. reflexivity. Qed.

(** C5 does not hold of the code. [POST /admissions/{id}/discharge] never
    answers 404 and never succeeds: for every identifier, every store and
    every implementation of [create_document] it raises the store's
    [OperationFailure] at its first query, [{"_id": {"$oid": id}}], before
    the fallback lookup, the 404, the decrement and the update of [end],
    and leaves the store as it was. So with no matching admission the
    error is not the 404, and with a matching open admission the bed is
    not released and [end] is not set. *)
Theorem discharge_fails_at_its_first_query
    (create_document : forall c : db.collection, db.model c -> M string)
    (admission_id : string) (now : datetime) (s : db.store) :
  main.discharge create_document admission_id now s
  = (Raise (Exception "unknown operator: $oid"), s)
  /\ fst (main.discharge create_document admission_id now s)
     <> Raise (HTTPException 404 "Admission not found")
  /\ fst (main.discharge create_document admission_id now s)
     <> Return {[ "status" := PStr "ok" ]}
  /\ db.rooms (snd (main.discharge create_document admission_id now s))
     = db.rooms s
  /\ db.admissions (snd (main.discharge create_document admission_id now s))
     = db.admissions s.
Proof.
  rewrite discharge_raises. simpl. repeat split; discriminate.
Qed.

(** The end-to-end scenario of the specification stops at the discharge:
    in a room of one bed the first admission succeeds and the second is
    refused with 409, but the discharge of the first raises, the bed stays
    taken and the admission open, and the second patient is refused
    again. *)
Example one_bed_scenario :
  let post := main.create_admission database.create_document
                (sample.admission "A1" None) in
  let s1 := snd (post sample.ward) in
  let s2 := snd (main.discharge database.create_document "0" 2000 s1) in
  fst (post sample.ward) = Return {[ "id" := PStr "0" ]}
  /\ db.rooms s1 = [sample.room_A1 1]
  /\ fst (post s1) = Raise (HTTPException 409 "No available bed")
  /\ fst (main.discharge database.create_document "0" 2000 s1)
     = Raise (Exception "unknown operator: $oid")
  /\ db.rooms s2 = [sample.room_A1 1]
  /\ db.admissions s2 = [db.mk_document "0" None (sample.admission "A1" None)]
  /\ fst (post s2) = Raise (HTTPException 409 "No available bed").
Proof. repeat split. Qed.

(** ** The bed-count invariant over request sequences *)

Lemma handle_rooms rq s :
  db.rooms (snd (handle rq s)) = db.rooms s
  \/ (exists before room after,
        db.rooms s = before ++ room :: after
        /\ Room.occupied_beds (db.fields room) < Room.bed_count (db.fields room)
        /\ db.rooms (snd (handle rq s)) = before ++ inc_occupied_beds 1 room :: after).
Proof.
  destruct rq as [payload|admission_id now]; simpl.
  - destruct (first_match (by_code (Admission.room_code payload)) (db.rooms s))
      as [room|] eqn:Hroom.
    + destruct (Z.lt_ge_cases (Room.occupied_beds (db.fields room))
                  (Room.bed_count (db.fields room))) as [Hfree|Hfull].
      * right.
        destruct (first_match_split _ _ _ Hroom) as (before & after & Hs & Hb & Hr).
        exists before, room, after. repeat split; [exact Hs|exact Hfree|].
        rewrite (admit_free_bed _ _ _ Hroom Hfree). simpl. rewrite Hs.
        apply (update_first_app _ (inc_occupied_beds 1) before after room Hb Hr).
      * left. rewrite (admit_no_bed _ _ _ _ Hroom); [reflexivity|lia].
    + left. now rewrite admit_no_room.
  - left. reflexivity.
Qed.

(** The upper half of the invariant does hold: no sequence of admissions
    and discharges puts more patients in a room than it has beds. *)
Lemma run_beds_at_most_count rqs s :
  beds_at_most_count s -> beds_at_most_count (run rqs s).
Proof.
  revert s. induction rqs as [|rq rqs IH]; intros s Hs; [exact Hs|].
  simpl. apply IH. intros d Hd.
  destruct (handle_rooms rq s) as [E|(before & room & after & Es & Hfree & E)];
    rewrite E in Hd.
  - now apply Hs.
  - apply in_app_or in Hd as [Hd|[<-|Hd]].
    + apply Hs. rewrite Es. apply in_or_app. now left.
    + simpl. lia.
    + apply Hs. rewrite Es. apply in_or_app. right. now right.
Qed.

(** C1. Starting from a store where every room has
    [0 <= occupied_beds <= bed_count], every sequence of
    [POST /admissions] and [POST /admissions/{id}/discharge] requests,
    accepted or not, leaves every room within these bounds: an admission
    adds a patient only below the bed count, and a discharge raises before
    it lowers any count. *)
Theorem beds_stay_in_range (rqs : list request) (s : db.store) :
  beds_in_range s -> beds_in_range (run rqs s).
Proof.
  revert s. induction rqs as [|rq rqs IH]; intros s Hs; [exact Hs|].
  simpl. apply IH. intros d Hd.
  destruct (handle_rooms rq s) as [E|(before & room & after & Es & Hfree & E)];
    rewrite E in Hd.
  - now apply Hs.
  - assert (Hroom : In room (db.rooms s)).
    { rewrite Es. apply in_elt. }
    apply in_app_or in Hd as [Hd|[<-|Hd]].
    + apply Hs. rewrite Es. apply in_or_app. now left.
    + specialize (Hs room Hroom). simpl. lia.
    + apply Hs. rewrite Es. apply in_or_app. right. now right.
Qed.

Lemma beds_stay_in_range_witness :
  beds_in_range
    (run [Admit (sample.admission "A1" None);
          Discharge "0" 2000;
          Discharge "0" 3000;
          Admit (sample.admission "A1" None);
          Admit (sample.admission "B2" None)]
       sample.full_ward).
Proof.
  apply beds_stay_in_range.
  intros d [<-|[<-|[]]]; simpl; lia.
Defined.

(** ** The triage rule *)

Lemma get_spo2_lookup (vital_signs : gmap string (option float)) :
  main.get_spo2 vital_signs = mjoin (vital_signs !! "spo2").
Proof.
  unfold main.get_spo2.
  destruct (Nat.eqb_spec (size vital_signs) 0) as [Hsize|_]; [|reflexivity].
  apply map_size_empty_iff in Hsize. subst vital_signs.
  now rewrite lookup_empty.
Qed.

Lemma gcs_critical_true gcs :
  main.gcs_critical gcs = true <-> exists g, gcs = Some g /\ g <= 8.
Proof.
  unfold main.gcs_critical. destruct gcs as [g|].
  - rewrite Z.leb_le. split.
    + intros H. now exists g.
    + now intros (g' & [= <-] & H).
  - split; [discriminate|]. now intros (g & H & _).
Qed.

Lemma spo2_critical_true (vital_signs : gmap string (option float)) :
  main.spo2_critical (main.get_spo2 vital_signs) = true
  <-> exists spo2, vital_signs !! "spo2" = Some (Some spo2)
                   /\ float_lt_int spo2 90 = true.
Proof.
  rewrite get_spo2_lookup. unfold main.spo2_critical.
  destruct (vital_signs !! "spo2") as [[v|]|]; simpl.
  - split.
    + intros H. now exists v.
    + now intros (v' & [= <-] & H).
  - split; [discriminate|]. now intros (v & H & _).
  - split; [discriminate|]. now intros (v & H & _).
Qed.

(** C2. The triage handler marks the event critical exactly when [gcs] is
    present and at most 8, or [vital_signs] holds a value for ["spo2"] and
    that value is below 90. When the event is critical and the incoming
    consent flag is false, the persisted document has the consent flag set
    and ["auto_consent_emergency_protocol"] appended to [critical_flags],
    its other fields being those of the payload; in every other case the
    persisted document is the payload, consent and flags unchanged. The
    response carries the criticality and the persisted consent. *)
Theorem triage_rule (payload : TriageEvent.t) (s : db.store) :
  let critical := main.is_critical payload in
  let data := main.triage_data payload in
  (critical = true <->
     (exists g, TriageEvent.gcs payload = Some g /\ g <= 8)
     \/ (exists spo2,
           TriageEvent.vital_signs payload !! "spo2" = Some (Some spo2)
           /\ float_lt_int spo2 90 = true))
  /\ (critical = true ->
      TriageEvent.consent_emergency_protocol payload = false ->
      data
      = TriageEvent.mk (TriageEvent.patient_id payload)
          (TriageEvent.arrival_mode payload) (TriageEvent.gcs payload)
          (TriageEvent.vital_signs payload) (TriageEvent.esi_level payload)
          (TriageEvent.critical_flags payload
             ++ ["auto_consent_emergency_protocol"])
          true (TriageEvent.notes payload))
  /\ (~ (critical = true
         /\ TriageEvent.consent_emergency_protocol payload = false) ->
      data = payload)
  /\ exists tid s',
       main.triage database.create_document payload s
       = (Return {[ "id" := PStr tid;
                    "critical" := PBool critical;
                    "consent" :=
                      PBool (TriageEvent.consent_emergency_protocol data) ]},
          s')
       /\ db.triageevents s'
          = db.triageevents s ++ [db.mk_document tid None data].
Proof.
  intros critical data. subst critical data. split; [|split; [|split]].
  - unfold main.is_critical.
    rewrite <- gcs_critical_true, <- spo2_critical_true.
    destruct (main.gcs_critical _), (main.spo2_critical _); simpl; intuition congruence.
  - intros Hc Hn. unfold main.triage_data. now rewrite Hc, Hn.
  - intros Hnot. unfold main.triage_data.
    destruct (main.is_critical payload),
      (TriageEvent.consent_emergency_protocol payload); simpl; try reflexivity.
    exfalso. now apply Hnot.
  - eexists _, _. split; reflexivity.
Qed.

Lemma triage_rule_witness :
  main.triage_data (sample.triage_event (Some 7) 95 false)
  = TriageEvent.mk "patient-1" None (Some 7) {[ "spo2" := Some 95%float ]} None
      ["auto_consent_emergency_protocol"] true None
  /\ main.triage_data (sample.triage_event (Some 12) 95 false)
     = sample.triage_event (Some 12) 95 false.
Proof.
  split.
  - apply (proj1 (proj2 (triage_rule (sample.triage_event (Some 7) 95 false)
                           db.empty))); reflexivity.
  - apply (proj1 (proj2 (proj2 (triage_rule (sample.triage_event (Some 12) 95 false)
                                  db.empty)))).
    intros [Hc _]. vm_compute in Hc. discriminate Hc.
Defined.

(** The two evaluations listed in the specification, and a low oxygen
    saturation alone. *)
Example triage_gcs_7 :
  let p := sample.triage_event (Some 7) 95 false in
  main.is_critical p = true
  /\ TriageEvent.consent_emergency_protocol (main.triage_data p) = true
  /\ TriageEvent.critical_flags (main.triage_data p)
     = ["auto_consent_emergency_protocol"].
Proof. repeat split. Qed.

Example triage_gcs_12 :
  let p := sample.triage_event (Some 12) 95 false in
  main.is_critical p = false
  /\ TriageEvent.consent_emergency_protocol (main.triage_data p) = false
  /\ TriageEvent.critical_flags (main.triage_data p) = [].
Proof. repeat split. Qed.

Example triage_spo2_89 :
  let p := sample.triage_event None 89.5 true in
  main.is_critical p = true /\ main.triage_data p = p.
Proof. repeat split. Qed.

(** ** The pharmacy stock check *)

(** The loop reads the inventory and nothing else: whatever it returns or
    raises, the store is the one it was given. *)
Lemma stock_loop_store (items : list (gmap string pyval)) (acc : list pyval)
    (s : db.store) :
  snd (main.stock_loop items acc s) = s.
Proof.
  revert acc. induction items as [|it items IH]; intros acc; simpl; [reflexivity|].
  unfold bind, find_one_by.
  destruct (value_filter s (main.item_sku it)); simpl; [reflexivity|apply IH].
Qed.

(** When the store accepts the query of every item, the loop returns the
    accumulator extended, in order, with the identifier of every reported
    item. *)
Lemma stock_loop_spec (items : list (gmap string pyval)) (acc : list pyval)
    (s : db.store) :
  (forall it, In it items -> accepted s (main.item_sku it)) ->
  main.stock_loop items acc s
  = (Return (acc ++ map main.item_sku (List.filter (reported s) items)), s).
Proof.
  revert acc. induction items as [|it items IH]; intros acc Hok; simpl.
  - unfold ret. now rewrite app_nil_r.
  - destruct (Hok it (or_introl eq_refl)) as (matches & Hm).
    unfold bind, find_one_by, reported. rewrite Hm. simpl.
    rewrite IH by (intros it' Hit'; apply Hok; now right).
    destruct (main.unavailable _); simpl; [|reflexivity].
    now rewrite <- app_assoc.
Qed.

(** The loop raises at the first item whose query the store rejects. *)
Lemma stock_loop_rejected (items : list (gmap string pyval)) (acc : list pyval)
    (s : db.store) (it : gmap string pyval) (msg : string) :
  In it items ->
  value_filter s (main.item_sku it) = inl msg ->
  exists e, main.stock_loop items acc s = (Raise e, s).
Proof.
  revert acc. induction items as [|it' items IH]; intros acc Hit Hmsg; [destruct Hit|].
  simpl. unfold bind, find_one_by.
  destruct (value_filter s (main.item_sku it')) as [msg'|matches] eqn:Hf.
  - now exists (Exception msg').
  - destruct Hit as [->|Hit]; [congruence|]. simpl. now apply IH.
Qed.

Lemma validate_prescription_run (req : PrescriptionValidateRequest.t) (s : db.store) :
  (forall it,
     In it (Prescription.items (PrescriptionValidateRequest.prescription req)) ->
     accepted s (main.item_sku it)) ->
  let out :=
    map main.item_sku
      (List.filter (reported s)
         (Prescription.items (PrescriptionValidateRequest.prescription req))) in
  main.validate_prescription req s
  = (Return {[ "status" :=
                 PStr (match out with
                       | [] => "validated"
                       | _ => "out_of_stock_external"
                       end);
               "out_of_stock" := PList out ]},
     s).
Proof.
  intros Hok out. unfold main.validate_prescription, bind.
  rewrite (stock_loop_spec _ _ _ Hok). fold out. simpl. unfold ret.
  now destruct out.
Qed.

Lemma validate_prescription_store (req : PrescriptionValidateRequest.t) (s : db.store) :
  snd (main.validate_prescription req s) = s.
Proof.
  unfold main.validate_prescription, bind.
  pose proof (stock_loop_store
                (Prescription.items (PrescriptionValidateRequest.prescription req))
                [] s) as H.
  destruct (main.stock_loop _ [] s) as [[out|e] s']; simpl in *; exact H.
Qed.





(** The check of the specification: item X has stock 0. *)
Example pharmacy_out_of_stock :
  main.validate_prescription (sample.request ["X"]) sample.pharmacy
  = (Return {[ "status" := PStr "out_of_stock_external";
               "out_of_stock" := PList [PStr "X"] ]},
     sample.pharmacy).
Proof. reflexivity. Qed.

Example pharmacy_validated :
  main.validate_prescription (sample.request ["Y"]) sample.pharmacy
  = (Return {[ "status" := PStr "validated"; "out_of_stock" := PList [] ]},
     sample.pharmacy).
Proof. reflexivity. Qed.

Example pharmacy_unknown_and_empty :
  main.validate_prescription (sample.request ["Y"; "Q"; "X"]) sample.pharmacy
  = (Return {[ "status" := PStr "out_of_stock_external";
               "out_of_stock" := PList [PStr "Q"; PStr "X"] ]},
     sample.pharmacy).
Proof. reflexivity. Qed.

(** An identifier that is a comparison is answered by the first record the
    comparison selects: [{"$gt": "X"}] is the [sku] of no record, and is
    validated on the stock of Y. *)
Example pharmacy_comparison :
  main.validate_prescription
    (PrescriptionValidateRequest.mk
       (Prescription.mk "patient-1" [ {[ "drug" := PDict [("$gt", PStr "X")] ]} ]
          false false Prescription.draft))
    sample.pharmacy
  = (Return {[ "status" := PStr "validated"; "out_of_stock" := PList [] ]},
     sample.pharmacy).
Proof. reflexivity. Qed.

(** C10. [POST /pharmacy/validate] writes nothing: for every request the
    store after the call is the store before it, in every collection (no
    prescription stored or updated, no stock changed, no audit entry) and
    in the identifier counter. *)
Theorem validate_prescription_writes_nothing
    (req : PrescriptionValidateRequest.t) (s : db.store) :
  snd (main.validate_prescription req s) = s.
Proof.
  unfold main.validate_prescription, bind.
  pose proof (stock_loop_store
                (Prescription.items (PrescriptionValidateRequest.prescription req))
                [] s) as H.
  destruct (main.stock_loop _ [] s) as [[out|e] s']; simpl in *; exact H.
Qed.

(** ** The occupancy dashboard *)

Lemma bor_totals_sums (rooms : list (db.document Room.t)) :
  main.bor_totals rooms
  = (Zsum (map (fun r => Room.bed_count (db.fields r)) rooms),
     Zsum (map (fun r => Room.occupied_beds (db.fields r)) rooms)).
Proof.
  unfold main.bor_totals.
  assert (H : forall acc,
             fold_left
               (fun acc r =>
                  (fst acc + Room.bed_count (db.fields r),
                   snd acc + Room.occupied_beds (db.fields r)))
               rooms acc
             = (fst acc + Zsum (map (fun r => Room.bed_count (db.fields r)) rooms),
                snd acc + Zsum (map (fun r => Room.occupied_beds (db.fields r)) rooms))).
  { unfold Zsum. induction rooms as [|r rooms IH]; intros [t o]; simpl.
    - f_equal; lia.
    - rewrite IH. simpl. f_equal; lia. }
  now rewrite H.
Qed.

(** C7, as stated, fails: the report has no field [bed_occupancy_rate];
    the rate is under the key ["bor"]. With zero rooms the response is not
    the one the claim gives. *)
Lemma dashboard_has_no_bed_occupancy_rate :
  exists report,
    main.dashboard_bor db.empty = (Return report, db.empty)
    /\ report !! "bed_occupancy_rate" = None
    /\ report <> {[ "total_beds" := PInt 0;
                    "occupied" := PInt 0;
                    "bed_occupancy_rate" := PInt 0 ]}.
Proof.
  eexists. split; [reflexivity|]. split; [reflexivity|].
  intros H. apply (f_equal (fun m => m !! "bed_occupancy_rate")) in H.
  vm_compute in H. discriminate H.
Qed.

(** C7, amended. [GET /dashboard/bor] returns [total_beds] and [occupied],
    the sums of [bed_count] and [occupied_beds] over all rooms, and under
    the key ["bor"] the rate [occupied / total_beds * 100] (float division
    and product), which is the integer 0 when [total_beds] is 0; with zero
    rooms it returns [{total_beds: 0, occupied: 0, bor: 0}]. The store is
    not changed. *)
Theorem occupancy_report (s : db.store) :
  let total_beds := Zsum (map (fun r => Room.bed_count (db.fields r)) (db.rooms s)) in
  let occupied := Zsum (map (fun r => Room.occupied_beds (db.fields r)) (db.rooms s)) in
  main.dashboard_bor s
  = (Return {[ "total_beds" := PInt total_beds;
               "occupied" := PInt occupied;
               "bor" :=
                 if total_beds =? 0 then PInt 0
                 else PFloat (int_truediv occupied total_beds * float_of_Z 100)%float ]},
     s)
  /\ (db.rooms s = [] ->
      main.dashboard_bor s
      = (Return {[ "total_beds" := PInt 0; "occupied" := PInt 0; "bor" := PInt 0 ]},
         s)).
Proof.
  intros total_beds occupied.
  assert (H : main.dashboard_bor s
              = (Return {[ "total_beds" := PInt total_beds;
                           "occupied" := PInt occupied;
                           "bor" := main.bor_rate occupied total_beds ]}, s)).
  { unfold main.dashboard_bor, bind, find_all. simpl.
    now rewrite bor_totals_sums. }
  split.
  - rewrite H. unfold main.bor_rate. now destruct (total_beds =? 0).
  - intros Hnone. rewrite H. subst total_beds occupied. now rewrite Hnone.
Qed.

Lemma occupancy_report_witness :
  main.dashboard_bor db.empty
  = (Return {[ "total_beds" := PInt 0; "occupied" := PInt 0; "bor" := PInt 0 ]},
     db.empty).
Proof. apply (proj2 (occupancy_report db.empty)). reflexivity. Defined.

Example occupancy_of_two_rooms :
  main.dashboard_bor sample.full_ward
  = (Return {[ "total_beds" := PInt 5; "occupied" := PInt 3; "bor" := PFloat 60 ]},
     sample.full_ward).
Proof. reflexivity. Qed.

(** ** The audit trail *)

(** C8, as stated, fails: no handler catches what the audit write raises.
    With an audit collection that rejects writes, creating a patient and
    admitting into a free bed both end in the exception, where they return
    an identifier when the audit write succeeds. *)
Lemma audit_failure_fails_the_request :
  let failing := database.create_document_failing sample.audit_down in
  fst (main.create_patient database.create_document sample.patient db.empty)
  = Return {[ "id" := PStr "0" ]}
  /\ fst (main.create_patient failing sample.patient db.empty)
     = Raise (Exception "Database not available")
  /\ fst (main.create_admission database.create_document
            (sample.admission "A1" None) sample.ward)
     = Return {[ "id" := PStr "0" ]}
  /\ fst (main.create_admission failing (sample.admission "A1" None) sample.ward)
     = Raise (Exception "Database not available")
  /\ fst (main.create_patient failing sample.patient db.empty)
     <> fst (main.create_patient database.create_document sample.patient db.empty).
Proof. repeat split. discriminate. Qed.

(** C8, amended. No mutating endpoint catches a failure of the audit
    write. For every implementation of [create_document], on the five
    routes that reach their audit write (patients, triage, admissions,
    procedures, lab results): when the writes that come before the audit
    entry succeed and the audit write raises [e], the handler raises [e]
    (the request fails), and the store is the one the failed audit write
    left, with the earlier writes (the primary record, the bed count) in
    it. The discharge route never reaches its audit write: it raises at
    its first query, whatever [create_document] does. *)
Theorem audit_failure_propagates
    (create_document : forall c : db.collection, db.model c -> M string)
    (e : exn) :
  (forall payload s pid s1 s2,
     create_document db.patient payload s = (Return pid, s1) ->
     create_document db.auditlog
       (main.audit "create" "patient" pid {[ "source" := PStr "api" ]}) s1
     = (Raise e, s2) ->
     main.create_patient create_document payload s = (Raise e, s2))
  /\
  (forall payload s tid s1 s2,
     create_document db.triageevent (main.triage_data payload) s = (Return tid, s1) ->
     create_document db.auditlog (main.audit "create" "triageevent" tid ∅) s1
     = (Raise e, s2) ->
     main.triage create_document payload s = (Raise e, s2))
  /\
  (forall payload s room aid s1 s2,
     first_match (by_code (Admission.room_code payload)) (db.rooms s) = Some room ->
     Room.occupied_beds (db.fields room) < Room.bed_count (db.fields room) ->
     create_document db.admission payload s = (Return aid, s1) ->
     create_document db.auditlog (main.audit "create" "admission" aid ∅)
       (snd (update_one db.room (by_code (Admission.room_code payload))
               (inc_occupied_beds 1) s1))
     = (Raise e, s2) ->
     main.create_admission create_document payload s = (Raise e, s2))
  /\
  (forall admission_id now s,
     main.discharge create_document admission_id now s
     = (Raise (Exception "unknown operator: $oid"), s))
  /\
  (forall payload now_local now_utc s pid s1 s2,
     create_document db.procedure (main.procedure_data payload now_local now_utc) s
     = (Return pid, s1) ->
     create_document db.auditlog (main.audit "create" "procedure" pid ∅) s1
     = (Raise e, s2) ->
     main.create_procedure create_document payload now_local now_utc s
     = (Raise e, s2))
  /\
  (forall payload s rid s1 s2,
     create_document db.labresult payload s = (Return rid, s1) ->
     create_document db.auditlog
       (main.audit "create" "labresult" rid {[ "source" := PStr "external" ]}) s1
     = (Raise e, s2) ->
     main.external_lab_result create_document payload s = (Raise e, s2)).
Proof.
  repeat apply conj.
  - intros payload s pid s1 s2 H1 H2.
    unfold main.create_patient, bind. now rewrite H1, H2.
  - intros payload s tid s1 s2 H1 H2.
    unfold main.triage, bind. now rewrite H1, H2.
  - intros payload s room aid s1 s2 Hroom Hfree H1 H2.
    unfold main.create_admission, bind, find_one. simpl. rewrite Hroom.
    destruct (Z.geb_spec (Room.occupied_beds (db.fields room))
                (Room.bed_count (db.fields room))); [lia|].
    rewrite H1. simpl in H2 |- *. now rewrite H2.
  - intros admission_id now s. apply discharge_raises.
  - intros payload now_local now_utc s pid s1 s2 H1 H2.
    unfold main.create_procedure, bind. now rewrite H1, H2.
  - intros payload s rid s1 s2 H1 H2.
    unfold main.external_lab_result, bind. now rewrite H1, H2.
Qed.

Lemma audit_failure_propagates_witness :
  let failing := database.create_document_failing sample.audit_down in
  let e := Exception "Database not available" in
  main.create_patient failing sample.patient db.empty
  = (Raise e, snd (database.create_document db.patient sample.patient db.empty))
  /\
  main.triage failing (sample.triage_event (Some 7) 95 false) db.empty
  = (Raise e,
     snd (database.create_document db.triageevent
            (main.triage_data (sample.triage_event (Some 7) 95 false)) db.empty))
  /\
  main.create_admission failing (sample.admission "A1" None) sample.ward
  = (Raise e,
     db.mk_store [] [] [sample.room_A1 1]
       [db.mk_document "0" None (sample.admission "A1" None)] [] [] [] [] 1%N
       db.comparisons)
  /\
  main.discharge failing "a-1" 2000 sample.ward_with_stay
  = (Raise (Exception "unknown operator: $oid"), sample.ward_with_stay)
  /\
  main.create_procedure failing (sample.procedure true None None) 1000000 2000000
    db.empty
  = (Raise e,
     snd (database.create_document db.procedure
            (main.procedure_data (sample.procedure true None None) 1000000 2000000)
            db.empty))
  /\
  main.external_lab_result failing sample.lab_result db.empty
  = (Raise e, snd (database.create_document db.labresult sample.lab_result db.empty)).
Proof.
  intros failing e.
  destruct (audit_failure_propagates failing e)
    as (Hpatient & Htriage & Hadmit & Hdischarge & Hprocedure & Hlab).
  repeat apply conj.
  - eapply (Hpatient _ _ "0"); reflexivity.
  - eapply (Htriage _ _ "0"); reflexivity.
  - eapply (Hadmit _ _ (sample.room_A1 0) "0"
             (snd (database.create_document db.admission
                     (sample.admission "A1" None) sample.ward)));
      [reflexivity|simpl; lia|reflexivity|reflexivity].
  - apply Hdischarge.
  - eapply (Hprocedure _ _ _ _ "0"); reflexivity.
  - eapply (Hlab _ _ "0"); reflexivity.
Defined.

(** ** The sterile workflow *)

(** C9, as stated, fails on a batch supplied as the empty string: with
    [requires_sterile] true, the batch [""] and a due date of the payload
    are both replaced, not stored as given. *)
Lemma empty_batch_is_overwritten :
  let payload := sample.procedure true (Some "") (Some 777) in
  let data := main.procedure_data payload 1000000 2000000 in
  Procedure.requires_sterile payload = true
  /\ Procedure.sterile_batch payload = Some ""
  /\ Procedure.d_sterile_batch data = Some "AUTO-1"
  /\ Procedure.d_sterile_batch data <> Procedure.sterile_batch payload
  /\ Procedure.d_cssd_return_due data = Some (DueIsoformat 28802000000)
  /\ Procedure.d_cssd_return_due data
     <> DueDatetime <$> Procedure.cssd_return_due payload
  /\ (exists pid s',
        main.create_procedure database.create_document payload 1000000 2000000
          db.empty
        = (Return {[ "id" := PStr pid ]}, s')
        /\ db.procedures s' = [db.mk_document pid None data]).
Proof.
  repeat apply conj; try reflexivity; try discriminate.
  eexists _, _. split; reflexivity.
Qed.

(** C9, amended. [POST /procedures] stores one procedure document. When
    [requires_sterile] is true and the payload's [sterile_batch] is absent
    or the empty string, the stored document has the generated batch tag
    ["AUTO-"] followed by the clock's whole seconds, and, as its
    [cssd_return_due], the ISO string of the clock reading plus exactly 8
    hours; its other fields are those of the payload. When
    [requires_sterile] is false or a non-empty [sterile_batch] was supplied,
    [sterile_batch] and [cssd_return_due] are stored as given, as is the
    rest of the payload. *)
Theorem sterile_workflow (payload : Procedure.t) (now_local now_utc : datetime)
    (s : db.store) :
  let data := main.procedure_data payload now_local now_utc in
  (exists pid s',
     main.create_procedure database.create_document payload now_local now_utc s
     = (Return {[ "id" := PStr pid ]}, s')
     /\ db.procedures s' = db.procedures s ++ [db.mk_document pid None data])
  /\
  (Procedure.requires_sterile payload = true ->
   Procedure.sterile_batch payload = None
   \/ Procedure.sterile_batch payload = Some "" ->
   data
   = Procedure.mk_data (Procedure.patient_id payload) (Procedure.doctor_id payload)
       (Procedure.description payload) true
       (Some ("AUTO-" +:+ pretty (Z.quot now_local 1000000)))
       (Some (DueIsoformat (now_utc + 8 * 3600 * 1000000)))
       (Procedure.materials payload) (Procedure.e_signature payload)
       (Procedure.iot_devices payload))
  /\
  (Procedure.requires_sterile payload = false
   \/ (exists batch, Procedure.sterile_batch payload = Some batch /\ batch <> "") ->
   Procedure.d_sterile_batch data = Procedure.sterile_batch payload
   /\ Procedure.d_cssd_return_due data
      = DueDatetime <$> Procedure.cssd_return_due payload
   /\ data = Procedure.model_dump payload).
Proof.
  intros data. subst data. split; [|split].
  - eexists _, _. split; reflexivity.
  - intros Hreq Hbatch. unfold main.procedure_data. rewrite Hreq.
    assert (Hno : main.no_batch (Procedure.sterile_batch payload) = true).
    { destruct Hbatch as [-> | ->]; reflexivity. }
    rewrite Hno. simpl. unfold main.with_sterile, main.auto_batch. simpl.
    now rewrite Hreq.
  - intros Hcase.
    assert (H : main.procedure_data payload now_local now_utc
                = Procedure.model_dump payload).
    { unfold main.procedure_data.
      destruct Hcase as [-> | (batch & -> & Hne)]; [reflexivity|].
      simpl. apply String.eqb_neq in Hne. rewrite Hne.
      now rewrite andb_false_r. }
    rewrite H. repeat split.
Qed.

Lemma sterile_workflow_witness :
  main.procedure_data (sample.procedure true None (Some 777)) 1700000000999999
    1700000001000000
  = Procedure.mk_data "patient-1" "doctor-1" "appendectomy" true
      (Some "AUTO-1700000000") (Some (DueIsoformat 1700028801000000)) [] None []
  /\
  main.procedure_data (sample.procedure true (Some "B-42") (Some 777)) 1000000 2000000
  = Procedure.mk_data "patient-1" "doctor-1" "appendectomy" true
      (Some "B-42") (Some (DueDatetime 777)) [] None []
  /\
  main.procedure_data (sample.procedure false None None) 1000000 2000000
  = Procedure.mk_data "patient-1" "doctor-1" "appendectomy" false None None [] None [].
Proof.
  repeat apply conj.
  - apply (proj1 (proj2 (sterile_workflow (sample.procedure true None (Some 777))
                           1700000000999999 1700000001000000 db.empty)));
      [reflexivity|left; reflexivity].
  - apply (proj2 (proj2 (sterile_workflow (sample.procedure true (Some "B-42") (Some 777))
                           1000000 2000000 db.empty))).
    right. exists "B-42". split; [reflexivity|discriminate].
  - apply (proj2 (proj2 (sterile_workflow (sample.procedure false None None)
                           1000000 2000000 db.empty))).
    left. reflexivity.
Defined.

(** * Further properties of the handlers *)

(** ** The admission ledger over sequences *)

Lemma run_beds_at_most_count_witness :
  beds_at_most_count
    (run [Admit (sample.admission "A1" None); Discharge "0" 2000; Discharge "0" 3000]
       sample.ward).
Proof.
  apply run_beds_at_most_count.
  intros d [<-|[]]. simpl. lia.
Defined.

Lemma update_first_map {A B} (q : A -> bool) (f : A -> A) (key : A -> B) (l : list A) :
  (forall x, key (f x) = key x) ->
  map key (update_first q f l) = map key l.
Proof.
  intros Hkey. induction l as [|x l IH]; simpl; [reflexivity|].
  destruct (q x); simpl; [now rewrite Hkey|now rewrite IH].
Qed.

Lemma admission_rooms payload s :
  db.rooms (snd (main.create_admission database.create_document payload s))
  = db.rooms s
  \/ (exists before room after,
        db.rooms s = before ++ room :: after
        /\ Room.occupied_beds (db.fields room) < Room.bed_count (db.fields room)
        /\ db.rooms (snd (main.create_admission database.create_document payload s))
           = before ++ inc_occupied_beds 1 room :: after).
Proof.
  destruct (first_match (by_code (Admission.room_code payload)) (db.rooms s))
    as [room|] eqn:Hroom.
  - destruct (Z.lt_ge_cases (Room.occupied_beds (db.fields room))
                (Room.bed_count (db.fields room))) as [Hfree|Hfull].
    + right.
      destruct (first_match_split _ _ _ Hroom) as (before & after & Hs & Hb & Hr).
      exists before, room, after. repeat split; [exact Hs|exact Hfree|].
      rewrite (admit_free_bed _ _ _ Hroom Hfree). simpl. rewrite Hs.
      apply (update_first_app _ (inc_occupied_beds 1) before after room Hb Hr).
    + left. rewrite (admit_no_bed _ _ _ _ Hroom); [reflexivity|lia].
  - left. now rewrite admit_no_room.
Qed.

(** Admissions alone keep the whole invariant: after any sequence of
    [POST /admissions], accepted or refused, every room still has
    [0 <= occupied_beds <= bed_count]. *)
Theorem admissions_keep_beds_in_range (payloads : list Admission.t) (s : db.store) :
  beds_in_range s -> beds_in_range (run (map Admit payloads) s).
Proof.
  revert s. induction payloads as [|payload payloads IH]; intros s Hs; [exact Hs|].
  simpl. apply IH. intros d Hd.
  destruct (admission_rooms payload s) as [E|(before & room & after & Es & Hfree & E)];
    rewrite E in Hd.
  - now apply Hs.
  - assert (Hroom : In room (db.rooms s)).
    { rewrite Es. apply in_elt. }
    apply in_app_or in Hd as [Hd|[<-|Hd]].
    + apply Hs. rewrite Es. apply in_or_app. now left.
    + specialize (Hs room Hroom). simpl. lia.
    + apply Hs. rewrite Es. apply in_or_app. right. now right.
Qed.

Lemma admissions_keep_beds_in_range_witness :
  beds_in_range
    (run (map Admit [sample.admission "A1" None; sample.admission "A1" None;
                     sample.admission "B2" None])
       sample.full_ward).
Proof.
  apply admissions_keep_beds_in_range.
  intros d [<-|[<-|[]]]; simpl; lia.
Defined.

(** Admissions fill a room up to its bed count and no further: after [n]
    requests for the same room, which started with
    [occupied_beds <= bed_count], the room has
    [min bed_count (occupied_beds + n)] occupied beds, and the other rooms
    are as they were. *)
Theorem admissions_fill_the_room (payloads : list Admission.t) (s : db.store)
    (before after : list (db.document Room.t)) (room : db.document Room.t) :
  db.rooms s = before ++ room :: after ->
  (forall d, In d before -> Room.code (db.fields d) <> Room.code (db.fields room)) ->
  (forall p, In p payloads -> Admission.room_code p = Room.code (db.fields room)) ->
  Room.occupied_beds (db.fields room) <= Room.bed_count (db.fields room) ->
  db.rooms (run (map Admit payloads) s)
  = before
    ++ db.mk_document (db.oid room) (db.id_key room)
         (Room.mk (Room.code (db.fields room)) (Room.zone (db.fields room))
            (Room.bed_count (db.fields room))
            (Z.min (Room.bed_count (db.fields room))
               (Room.occupied_beds (db.fields room) + Z.of_nat (length payloads)))
            (Room.tariff_class (db.fields room)))
    :: after.
Proof.
  revert s room.
  induction payloads as [|payload payloads IH]; intros s room Hrooms Hbefore Hcode Hle.
  - simpl. rewrite Hrooms. destruct room as [o i [c z b occ t]]. simpl in *.
    do 4 f_equal. lia.
  - assert (Hq : forall d, In d before ->
                   by_code (Admission.room_code payload) d = false).
    { intros d Hd. apply by_code_false. rewrite (Hcode payload (or_introl eq_refl)).
      now apply Hbefore. }
    assert (Hr : by_code (Admission.room_code payload) room = true).
    { apply by_code_true. symmetry. apply Hcode. now left. }
    assert (Hfind : first_match (by_code (Admission.room_code payload)) (db.rooms s)
                    = Some room).
    { rewrite Hrooms. now apply first_match_app. }
    assert (Hrest : forall p, In p payloads ->
                      Admission.room_code p = Room.code (db.fields room)).
    { intros p Hp. apply Hcode. now right. }
    change (run (map Admit (payload :: payloads)) s)
      with (run (map Admit payloads)
              (snd (main.create_admission database.create_document payload s))).
    destruct (Z.lt_ge_cases (Room.occupied_beds (db.fields room))
                (Room.bed_count (db.fields room))) as [Hfree|Hfull].
    + rewrite (IH _ (inc_occupied_beds 1 room)).
      * simpl. do 4 f_equal. lia.
      * rewrite (admit_free_bed _ _ _ Hfind Hfree). simpl. rewrite Hrooms.
        apply (update_first_app _ (inc_occupied_beds 1) before after room Hq Hr).
      * exact Hbefore.
      * exact Hrest.
      * simpl. lia.
    + rewrite (admit_no_bed _ _ _ _ Hfind); [|lia]. simpl.
      rewrite (IH s room Hrooms Hbefore Hrest Hle).
      do 4 f_equal. lia.
Qed.

Lemma admissions_fill_the_room_witness :
  db.rooms
    (run (map Admit [sample.admission "B2" None; sample.admission "B2" None;
                     sample.admission "B2" None])
       sample.full_ward)
  = [db.mk_document "r-B2" None (Room.mk "B2" Room.ICU 4 4 Room.VIP);
     sample.room_A1 1].
Proof.
  refine (admissions_fill_the_room
            [sample.admission "B2" None; sample.admission "B2" None;
             sample.admission "B2" None]
            sample.full_ward [] [sample.room_A1 1] sample.room_B2 _ _ _ _).
  - reflexivity.
  - intros d [].
  - intros p [<-|[<-|[<-|[]]]]; reflexivity.
  - simpl; lia.
Defined.

(** ** Discharge and the admissions *)


(** ** Triage *)

(** Triage is idempotent on what it persists: the persisted document is
    critical exactly when the payload is, and submitting it again persists
    it unchanged, so the emergency flag is not appended a second time. *)
Theorem triage_data_idempotent (payload : TriageEvent.t) :
  main.is_critical (main.triage_data payload) = main.is_critical payload
  /\ main.triage_data (main.triage_data payload) = main.triage_data payload.
Proof.
  assert (Hc : main.is_critical (main.triage_data payload) = main.is_critical payload).
  { unfold main.triage_data.
    now destruct (main.is_critical payload && _). }
  split; [exact Hc|].
  unfold main.triage_data at 1. rewrite Hc.
  unfold main.triage_data.
  destruct (main.is_critical payload) eqn:Hcrit,
    (TriageEvent.consent_emergency_protocol payload) eqn:Hconsent;
    simpl; rewrite ?Hconsent; reflexivity.
Qed.

(** Criticality reads [gcs] and the ["spo2"] entry of [vital_signs] and
    nothing else: two payloads that agree on these are critical together,
    whatever their other vital signs, ESI level, flags or notes. *)
Theorem criticality_reads_gcs_and_spo2 (p p' : TriageEvent.t) :
  TriageEvent.gcs p = TriageEvent.gcs p' ->
  TriageEvent.vital_signs p !! "spo2" = TriageEvent.vital_signs p' !! "spo2" ->
  main.is_critical p = main.is_critical p'.
Proof.
  intros Hgcs Hspo2. unfold main.is_critical.
  now rewrite Hgcs, !get_spo2_lookup, Hspo2.
Qed.

Lemma criticality_reads_gcs_and_spo2_witness :
  main.is_critical
    (TriageEvent.mk "patient-2" (Some "ambulance") (Some 12)
       {[ "spo2" := Some 95%float; "nadi" := Some 190%float; "rr" := None ]}
       (Some 1) ["trauma"] true (Some "unstable"))
  = main.is_critical (sample.triage_event (Some 12) 95 false).
Proof. apply criticality_reads_gcs_and_spo2; reflexivity. Defined.

(** ** Procedures *)

(** A procedure that requires sterile material is never stored without a
    batch: the stored [sterile_batch] is present and not empty, supplied or
    generated. *)
Theorem sterile_procedure_has_batch (payload : Procedure.t)
    (now_local now_utc : datetime) :
  Procedure.requires_sterile payload = true ->
  exists batch,
    Procedure.d_sterile_batch (main.procedure_data payload now_local now_utc)
    = Some batch
    /\ batch <> "".
Proof.
  intros Hreq. unfold main.procedure_data. rewrite Hreq. simpl.
  destruct (Procedure.sterile_batch payload) as [b|] eqn:Hb; simpl.
  - destruct (String.eqb_spec b "") as [->|Hne]; simpl.
    + eexists. split; [reflexivity|discriminate].
    + exists b. rewrite Hb. now split.
  - eexists. split; [reflexivity|discriminate].
Qed.

Lemma sterile_procedure_has_batch_witness :
  exists batch,
    Procedure.d_sterile_batch
      (main.procedure_data (sample.procedure true (Some "") None) 1000000 2000000)
    = Some batch
    /\ batch <> "".
Proof. apply sterile_procedure_has_batch. reflexivity. Defined.

(** ** The pharmacy stock check, further *)

Lemma accepted_or_rejected (items : list (gmap string pyval)) (s : db.store) :
  (forall it, In it items -> accepted s (main.item_sku it))
  \/ (exists it msg, In it items /\ value_filter s (main.item_sku it) = inl msg).
Proof.
  induction items as [|it items [IH|(it' & msg & Hin & Hmsg)]].
  - left. intros it [].
  - destruct (value_filter s (main.item_sku it)) as [msg|matches] eqn:Hf.
    + right. exists it, msg. split; [now left|exact Hf].
    + left. intros it' [<-|Hit']; [now exists matches|now apply IH].
  - right. exists it', msg. split; [now right|exact Hmsg].
Qed.

Lemma validate_prescription_rejected (req : PrescriptionValidateRequest.t)
    (s : db.store) (it : gmap string pyval) (msg : string) :
  In it (Prescription.items (PrescriptionValidateRequest.prescription req)) ->
  value_filter s (main.item_sku it) = inl msg ->
  exists e, main.validate_prescription req s = (Raise e, s).
Proof.
  intros Hit Hmsg. unfold main.validate_prescription, bind.
  destruct (stock_loop_rejected _ [] s it msg Hit Hmsg) as (e & ->).
  now exists e.
Qed.

Lemma filter_nil {A} (f : A -> bool) (l : list A) :
  List.filter f l = [] <-> forall x, In x l -> f x = false.
Proof.
  split.
  - intros Hnil x Hx. destruct (f x) eqn:Hf; [|reflexivity].
    assert (Hin : In x (List.filter f l)) by now apply List.filter_In.
    rewrite Hnil in Hin. destruct Hin.
  - intros Hall. induction l as [|x l IH]; [reflexivity|].
    simpl. rewrite (Hall x (or_introl eq_refl)). apply IH.
    intros y Hy. apply Hall. now right.
Qed.

(** An item with neither a [drug] nor a [sku] key is reported, as [None],
    whatever the inventory holds, and the prescription is then out of
    stock; this is so whenever the endpoint answers, that is when the store
    accepts the query of every item. *)
Theorem item_without_identifier_is_reported (req : PrescriptionValidateRequest.t)
    (s : db.store) (it : gmap string pyval) :
  In it (Prescription.items (PrescriptionValidateRequest.prescription req)) ->
  it !! "drug" = None ->
  it !! "sku" = None ->
  (forall it',
     In it' (Prescription.items (PrescriptionValidateRequest.prescription req)) ->
     exists matches, value_filter s (main.item_sku it') = inr matches) ->
  exists out,
    main.validate_prescription req s
    = (Return {[ "status" := PStr "out_of_stock_external";
                 "out_of_stock" := PList out ]},
       s)
    /\ In PNone out.
Proof.
  intros Hit Hdrug Hsku Hok.
  assert (Hid : main.item_sku it = PNone).
  { unfold main.item_sku, dict_get. now rewrite Hdrug, Hsku. }
  pose proof (validate_prescription_run req s Hok) as Hrun. simpl in Hrun.
  match type of Hrun with
  | context [PList ?o] => set (out := o) in *
  end.
  assert (Hin : In PNone out).
  { subst out. rewrite <- Hid. apply in_map. apply List.filter_In.
    split; [exact Hit|]. unfold reported. rewrite Hid. simpl.
    now rewrite (proj2 (first_match_none (fun _ => false) (db.inventoryitems s))
                   (fun _ _ => eq_refl)). }
  exists out. split; [|exact Hin].
  rewrite Hrun. now destruct out.
Qed.

Lemma item_without_identifier_is_reported_witness :
  exists out,
    main.validate_prescription
      (PrescriptionValidateRequest.mk
         (Prescription.mk "patient-1"
            [ {[ "sku" := PStr "Y" ]}; {[ "dose" := PStr "500mg" ]} ]
            false false Prescription.draft))
      sample.pharmacy
    = (Return {[ "status" := PStr "out_of_stock_external";
                 "out_of_stock" := PList out ]},
       sample.pharmacy)
    /\ In PNone out.
Proof.
  apply (item_without_identifier_is_reported _ _ {[ "dose" := PStr "500mg" ]}).
  - right. now left.
  - reflexivity.
  - reflexivity.
  - intros it' [<-|[<-|[]]]; eexists; reflexivity.
Defined.

(** The check works item by item: when the store accepts the query of
    every item, the report for a list of items followed by another is the
    report for the first followed by the report for the second, and the
    whole is validated exactly when both parts are. *)
Theorem stock_check_of_concatenation (req : PrescriptionValidateRequest.t)
    (items1 items2 : list (gmap string pyval)) (s : db.store) :
  (forall it, In it (items1 ++ items2) ->
     exists matches, value_filter s (main.item_sku it) = inr matches) ->
  exists status1 status2 status out1 out2,
    main.validate_prescription (with_items req items1) s
    = (Return {[ "status" := PStr status1; "out_of_stock" := PList out1 ]}, s)
    /\ main.validate_prescription (with_items req items2) s
       = (Return {[ "status" := PStr status2; "out_of_stock" := PList out2 ]}, s)
    /\ main.validate_prescription (with_items req (items1 ++ items2)) s
       = (Return {[ "status" := PStr status;
                    "out_of_stock" := PList (out1 ++ out2) ]}, s)
    /\ (status = "validated"
        <-> status1 = "validated" /\ status2 = "validated").
Proof.
  intros Hok.
  assert (Hok1 : forall it, In it items1 -> accepted s (main.item_sku it)).
  { intros it Hit. apply Hok. apply in_or_app. now left. }
  assert (Hok2 : forall it, In it items2 -> accepted s (main.item_sku it)).
  { intros it Hit. apply Hok. apply in_or_app. now right. }
  pose proof (validate_prescription_run (with_items req items1) s Hok1) as H1.
  pose proof (validate_prescription_run (with_items req items2) s Hok2) as H2.
  pose proof (validate_prescription_run (with_items req (items1 ++ items2)) s Hok) as H.
  simpl in H1, H2, H. rewrite List.filter_app, List.map_app in H.
  eexists _, _, _, _, _. split; [exact H1|]. split; [exact H2|]. split; [exact H|].
  destruct (map _ (List.filter _ items1)), (map _ (List.filter _ items2));
    simpl; split; try tauto; intros; try discriminate; intuition discriminate.
Qed.

Lemma stock_check_of_concatenation_witness :
  exists status1 status2 status out1 out2,
    main.validate_prescription (with_items (sample.request []) [ {[ "sku" := PStr "Y" ]} ])
      sample.pharmacy
    = (Return {[ "status" := PStr status1; "out_of_stock" := PList out1 ]},
       sample.pharmacy)
    /\ main.validate_prescription
         (with_items (sample.request []) [ {[ "drug" := PStr "X" ]} ]) sample.pharmacy
       = (Return {[ "status" := PStr status2; "out_of_stock" := PList out2 ]},
          sample.pharmacy)
    /\ main.validate_prescription
         (with_items (sample.request [])
            ([ {[ "sku" := PStr "Y" ]} ] ++ [ {[ "drug" := PStr "X" ]} ]))
         sample.pharmacy
       = (Return {[ "status" := PStr status;
                    "out_of_stock" := PList (out1 ++ out2) ]}, sample.pharmacy)
    /\ (status = "validated"
        <-> status1 = "validated" /\ status2 = "validated").
Proof.
  apply stock_check_of_concatenation.
  intros it [<-|[<-|[]]]; eexists; reflexivity.
Defined.

(** A prescription is validated exactly when, for every item, the store
    accepts the query for its identifier and the query returns a record
    with a positive stock. *)
Theorem validated_iff_all_in_stock (req : PrescriptionValidateRequest.t)
    (s : db.store) :
  fst (main.validate_prescription req s)
  = Return {[ "status" := PStr "validated"; "out_of_stock" := PList [] ]}
  <-> (forall it,
         In it (Prescription.items (PrescriptionValidateRequest.prescription req)) ->
         exists matches inv,
           value_filter s (main.item_sku it) = inr matches
           /\ first_match (fun d => matches (sku_of d)) (db.inventoryitems s)
              = Some inv
           /\ InventoryItem.stock (db.fields inv) > 0).
Proof.
  set (items := Prescription.items (PrescriptionValidateRequest.prescription req)).
  assert (Havail : forall it matches,
             value_filter s (main.item_sku it) = inr matches ->
             reported s it = false
             <-> exists inv,
                   first_match (fun d => matches (sku_of d)) (db.inventoryitems s)
                   = Some inv
                   /\ InventoryItem.stock (db.fields inv) > 0).
  { intros it matches Hm. unfold reported, main.unavailable. rewrite Hm.
    destruct (first_match (fun d => matches (sku_of d)) (db.inventoryitems s))
      as [inv|].
    - rewrite Z.leb_gt. split.
      + intros H. exists inv. split; [reflexivity|lia].
      + intros (inv' & [= <-] & H). lia.
    - split; [discriminate|]. now intros (inv & H & _). }
  split.
  - intros H.
    destruct (accepted_or_rejected items s) as [Hok|(it & msg & Hit & Hmsg)].
    + rewrite (validate_prescription_run req s Hok) in H. simpl in H. fold items in H.
      assert (Hnil : List.filter (reported s) items = []).
      { destruct (List.filter (reported s) items) as [|x l]; [reflexivity|].
        exfalso.
        apply (f_equal (fun r : result (gmap string pyval) =>
                          match r with
                          | Return m => m !! "status"
                          | Raise _ => None
                          end)) in H.
        vm_compute in H. discriminate H. }
      intros it Hit. destruct (Hok it Hit) as (matches & Hm).
      destruct (proj1 (Havail it matches Hm)) as (inv & Hinv & Hstock).
      { now apply (proj1 (filter_nil (reported s) items) Hnil). }
      now exists matches, inv.
    + destruct (validate_prescription_rejected req s it msg Hit Hmsg) as (e & He).
      rewrite He in H. discriminate H.
  - intros Hall.
    assert (Hok : forall it, In it items -> accepted s (main.item_sku it)).
    { intros it Hit. destruct (Hall it Hit) as (matches & _ & Hm & _).
      now exists matches. }
    rewrite (validate_prescription_run req s Hok). simpl. fold items.
    assert (Hnil : List.filter (reported s) items = []).
    { apply filter_nil. intros it Hit.
      destruct (Hall it Hit) as (matches & inv & Hm & Hinv & Hstock).
      apply (Havail it matches Hm). now exists inv. }
    now rewrite Hnil.
Qed.

(** ** The dashboard and the ledger *)

Lemma dashboard_bor_run (s : db.store) :
  main.dashboard_bor s
  = (Return {[ "total_beds" :=
                 PInt (Zsum (map (fun r => Room.bed_count (db.fields r)) (db.rooms s)));
               "occupied" :=
                 PInt (Zsum (map (fun r => Room.occupied_beds (db.fields r))
                               (db.rooms s)));
               "bor" :=
                 main.bor_rate
                   (Zsum (map (fun r => Room.occupied_beds (db.fields r)) (db.rooms s)))
                   (Zsum (map (fun r => Room.bed_count (db.fields r)) (db.rooms s))) ]},
     s).
Proof.
  unfold main.dashboard_bor, bind, find_all. simpl.
  now rewrite bor_totals_sums.
Qed.

Lemma Zsum_app (l1 l2 : list Z) : Zsum (l1 ++ l2) = Zsum l1 + Zsum l2.
Proof.
  unfold Zsum. induction l1 as [|x l1 IH]; simpl; [reflexivity|].
  rewrite IH. lia.
Qed.

(** The dashboard follows the ledger: after an accepted admission it
    reports the same [total_beds] and one more [occupied] bed than before. *)
Theorem dashboard_counts_the_admission (payload : Admission.t) (s : db.store)
    (room : db.document Room.t) :
  first_match (by_code (Admission.room_code payload)) (db.rooms s) = Some room ->
  Room.occupied_beds (db.fields room) < Room.bed_count (db.fields room) ->
  exists total_beds occupied,
    fst (main.dashboard_bor s)
    = Return {[ "total_beds" := PInt total_beds;
                "occupied" := PInt occupied;
                "bor" := main.bor_rate occupied total_beds ]}
    /\ fst (main.dashboard_bor
              (snd (main.create_admission database.create_document payload s)))
       = Return {[ "total_beds" := PInt total_beds;
                   "occupied" := PInt (occupied + 1);
                   "bor" := main.bor_rate (occupied + 1) total_beds ]}.
Proof.
  intros Hroom Hfree. eexists _, _. split.
  - now rewrite dashboard_bor_run.
  - rewrite dashboard_bor_run, (admit_free_bed _ _ _ Hroom Hfree). simpl.
    destruct (first_match_split _ _ _ Hroom) as (before & after & Hs & Hb & Hr).
    assert (Hinc : update_first (by_code (Admission.room_code payload))
                     (inc_occupied_beds 1) (db.rooms s)
                   = before ++ inc_occupied_beds 1 room :: after).
    { rewrite Hs.
      apply (update_first_app _ (inc_occupied_beds 1) before after room Hb Hr). }
    rewrite Hinc.
    assert (Htotal :
              Zsum (map (fun r => Room.bed_count (db.fields r))
                      (before ++ inc_occupied_beds 1 room :: after))
              = Zsum (map (fun r => Room.bed_count (db.fields r)) (db.rooms s))).
    { rewrite Hs, !List.map_app, !Zsum_app. reflexivity. }
    assert (Hocc :
              Zsum (map (fun r => Room.occupied_beds (db.fields r))
                      (before ++ inc_occupied_beds 1 room :: after))
              = Zsum (map (fun r => Room.occupied_beds (db.fields r)) (db.rooms s))
                + 1).
    { rewrite Hs, !List.map_app, !Zsum_app. unfold Zsum. simpl. lia. }
    now rewrite Htotal, Hocc.
Qed.

Lemma dashboard_counts_the_admission_witness :
  exists total_beds occupied,
    fst (main.dashboard_bor sample.ward)
    = Return {[ "total_beds" := PInt total_beds;
                "occupied" := PInt occupied;
                "bor" := main.bor_rate occupied total_beds ]}
    /\ fst (main.dashboard_bor
              (snd (main.create_admission database.create_document
                      (sample.admission "A1" None) sample.ward)))
       = Return {[ "total_beds" := PInt total_beds;
                   "occupied" := PInt (occupied + 1);
                   "bor" := main.bor_rate (occupied + 1) total_beds ]}.
Proof.
  apply (dashboard_counts_the_admission _ _ (sample.room_A1 0)).
  - reflexivity.
  - simpl; lia.
Defined.

(** When every room is within its bed count, the dashboard reports
    [0 <= occupied <= total_beds]. *)
Theorem dashboard_within_capacity (s : db.store) :
  beds_in_range s ->
  exists total_beds occupied,
    fst (main.dashboard_bor s)
    = Return {[ "total_beds" := PInt total_beds;
                "occupied" := PInt occupied;
                "bor" := main.bor_rate occupied total_beds ]}
    /\ 0 <= occupied <= total_beds.
Proof.
  intros Hs. eexists _, _. split; [now rewrite dashboard_bor_run|].
  unfold beds_in_range in Hs. unfold Zsum.
  induction (db.rooms s) as [|r rooms IH]; simpl; [lia|].
  pose proof (Hs r (or_introl eq_refl)).
  assert (Hrest : forall d, In d rooms ->
            0 <= Room.occupied_beds (db.fields d) <= Room.bed_count (db.fields d)).
  { intros d Hd. apply Hs. now right. }
  specialize (IH Hrest). lia.
Qed.

Lemma dashboard_within_capacity_witness :
  exists total_beds occupied,
    fst (main.dashboard_bor sample.full_ward)
    = Return {[ "total_beds" := PInt total_beds;
                "occupied" := PInt occupied;
                "bor" := main.bor_rate occupied total_beds ]}
    /\ 0 <= occupied <= total_beds.
Proof.
  apply dashboard_within_capacity.
  intros d [<-|[<-|[]]]; simpl; lia.
Defined.

(** ** All the routes *)

Ltac admission_cases payload s :=
  let room := fresh "room" in
  let Hroom := fresh "Hroom" in
  let Hfree := fresh "Hfree" in
  let Hfull := fresh "Hfull" in
  destruct (first_match (by_code (Admission.room_code payload)) (db.rooms s))
    as [room|] eqn:Hroom;
  [ destruct (Z.lt_ge_cases (Room.occupied_beds (db.fields room))
                (Room.bed_count (db.fields room))) as [Hfree|Hfull];
    [ rewrite (admit_free_bed _ _ _ Hroom Hfree)
    | rewrite (admit_no_bed _ _ _ _ Hroom (Z.le_ge _ _ Hfull)) ]
  | rewrite (admit_no_room _ _ _ Hroom) ].

Ltac validate_cases req s :=
  let Hstore := fresh "Hstore" in
  pose proof (validate_prescription_store req s) as Hstore;
  destruct (main.validate_prescription req s) as [[?|?] ?];
  simpl in Hstore; subst.

Ltac serve_cases e s :=
  let payload := fresh "payload" in
  let admission_id := fresh "admission_id" in
  let now := fresh "now" in
  let req := fresh "req" in
  destruct e as [payload|payload|payload|admission_id now|payload ? ?|req|payload|];
  unfold serve;
  [ | | admission_cases payload s
    | rewrite (discharge_raises database.create_document admission_id now s) | |
    validate_cases req s | | rewrite (dashboard_bor_run s) ];
  simpl.

(** No route writes to the inventory: whatever the request and its
    outcome, the inventory items are those of before. *)
Theorem inventory_is_read_only (e : endpoint) (s : db.store) :
  db.inventoryitems (snd (serve e s)) = db.inventoryitems s.
Proof. serve_cases e s; reflexivity. Qed.

(** The audit log is append-only and counts the accepted writes: a request
    never changes or removes an entry; it appends exactly one entry when it
    is a mutating request that succeeds, and none when it fails or only
    reads. *)
Theorem audit_log_counts_writes (e : endpoint) (s : db.store) :
  exists new,
    db.auditlogs (snd (serve e s)) = db.auditlogs s ++ new
    /\ match fst (serve e s) with
       | Return _ => length new = if mutating e then 1%nat else 0%nat
       | Raise _ => new = []
       end.
Proof.
  serve_cases e s;
    first [ eexists [_]; split; reflexivity
          | exists []; split; [now rewrite app_nil_r|reflexivity] ].
Qed.

Lemma update_first_related {A} (R : A -> A -> Prop) (q : A -> bool) (f : A -> A)
    (l : list A) :
  (forall x, R x x) ->
  (forall x, R x (f x)) ->
  Forall2 R l (update_first q f l).
Proof.
  intros Hrefl Hf. induction l as [|x l IH]; simpl; [constructor|].
  destruct (q x); constructor; auto.
  clear IH. induction l; constructor; auto.
Qed.

(** No route releases a bed: after any request, accepted or refused, every
    room has at least the [occupied_beds] it had before, the rooms being
    the same in number and order. *)
Theorem beds_are_never_released (e : endpoint) (s : db.store) :
  Forall2
    (fun before after =>
       Room.occupied_beds (db.fields before) <= Room.occupied_beds (db.fields after))
    (db.rooms s) (db.rooms (snd (serve e s))).
Proof.
  assert (Hsame : forall l : list (db.document Room.t),
            Forall2
              (fun before after =>
                 Room.occupied_beds (db.fields before)
                 <= Room.occupied_beds (db.fields after)) l l).
  { induction l; constructor; [lia|assumption]. }
  serve_cases e s; try apply Hsame.
  apply update_first_related; intros x; simpl; lia.
Qed.

(** No route creates, removes or renames a room or changes its bed count:
    apart from [occupied_beds], the rooms after a request are the rooms
    before it. *)
Theorem rooms_keep_their_identity (e : endpoint) (s : db.store) :
  map room_identity (db.rooms (snd (serve e s))) = map room_identity (db.rooms s).
Proof.
  serve_cases e s; try reflexivity; now apply update_first_map.
Qed.

(** No route removes or rewrites a stored record: the patients, triage
    events, procedures and lab results of before are still there, in
    order, followed by what the request added; so are the admissions, up to
    their [end]. *)
Theorem records_are_never_removed (e : endpoint) (s : db.store) :
  let s' := snd (serve e s) in
  (exists new, db.patients s' = db.patients s ++ new)
  /\ (exists new, db.triageevents s' = db.triageevents s ++ new)
  /\ (exists new, db.procedures s' = db.procedures s ++ new)
  /\ (exists new, db.labresults s' = db.labresults s ++ new)
  /\ (exists new,
        map admission_identity (db.admissions s')
        = map admission_identity (db.admissions s ++ new)).
Proof.
  assert (Hsame : forall A (l : list A), exists new, l = l ++ new).
  { intros A l. exists []. now rewrite app_nil_r. }
  assert (Hmore : forall A (l k : list A), exists new, l ++ k = l ++ new).
  { intros A l k. now exists k. }
  assert (Hadm : forall l l' : list (db.document Admission.t),
            map admission_identity l' = map admission_identity l ->
            exists new, map admission_identity l' = map admission_identity (l ++ new)).
  { intros l l' H. exists []. now rewrite app_nil_r. }
  serve_cases e s; repeat split;
    first [ apply Hsame | apply Hmore | apply Hadm; reflexivity
          | apply Hadm; now apply update_first_map
          | eexists; reflexivity ].
Qed.

(** ** The status endpoint *)

(** [GET /test] lists at most 20 collections: the first 20 names the
    database returns, and none when there is no database handle, when
    reading its name raises or when the listing raises. *)
Theorem test_database_collections (db : option main.handle)
    (database_url : option string) :
  exists names,
    main.test_database db database_url !! "collections"
    = Some (PList (PStr <$> names))
    /\ (length names <= 20)%nat
    /\ names
       = match db with
         | Some h =>
             match main.name h, main.list_collection_names h with
             | main.NameRaises _, _ => []
             | _, inr collections => take 20 collections
             | _, inl _ => []
             end
         | None => []
         end.
Proof.
  eexists. split; [|split].
  3: reflexivity.
  - destruct db as [[[|n|msg] [e|collections]]|]; reflexivity.
  - destruct db as [[[|n|msg] [e|collections]]|]; simpl;
      rewrite ?length_take; lia.
Qed.

(** [GET /test] reports a connection exactly when there is a database
    handle whose name can be read, and reports the database as working
    exactly when, moreover, the collections could be listed. *)
Theorem test_database_status (db : option main.handle)
    (database_url : option string) :
  (main.test_database db database_url !! "connection_status"
   = Some (PStr "Connected")
   <-> exists h, db = Some h /\ forall e, main.name h <> main.NameRaises e)
  /\
  (main.test_database db database_url !! "database"
   = Some (PStr "✅ Connected & Working")
   <-> exists h collections,
         db = Some h
         /\ (forall e, main.name h <> main.NameRaises e)
         /\ main.list_collection_names h = inr collections).
Proof.
  destruct db as [[[|n|msg] [e|collections]]|]; split; split;
    try (intros H; vm_compute in H; discriminate H);
    try (intros (h & H & _); discriminate H);
    try (intros (h & c & H & _); discriminate H);
    try (intros (h & [= <-] & Hname); simpl in Hname; now destruct (Hname msg));
    try (intros (h & c & [= <-] & Hname & Hlist); simpl in Hname, Hlist;
         first [discriminate Hlist | now destruct (Hname msg)]);
    intros _; repeat eexists; simpl; discriminate.
Qed.

Example test_database_connected :
  main.test_database
    (Some (main.mk_handle (main.Name "hospital") (inr ["patient"; "room"])))
    (Some "mongodb://localhost")
  = {[ "backend" := PStr "✅ Running";
       "database" := PStr "✅ Connected & Working";
       "database_url" := PStr "✅ Set";
       "database_name" := PStr "hospital";
       "connection_status" := PStr "Connected";
       "collections" := PList [PStr "patient"; PStr "room"] ]}.
Proof. reflexivity. Qed.

(** The audit entry of an accepted write names the record written and
    never an actor: its [entity_id] is the identifier the response returns
    (for a discharge, the identifier of the request), and its [actor_id] is
    null on every route. *)
Theorem audit_entry_names_the_record (e : endpoint) (s : db.store) :
  match fst (serve e s) with
  | Raise _ => True
  | Return response =>
      if mutating e then
        exists entry,
          db.auditlogs (snd (serve e s)) = db.auditlogs s ++ [entry]
          /\ AuditLog.actor_id (db.fields entry) = None
          /\ AuditLog.entity_id (db.fields entry)
             = match e with
               | PostDischarge admission_id _ => Some admission_id
               | _ =>
                   match response !! "id" with
                   | Some (PStr id) => Some id
                   | _ => None
                   end
               end
      else True
  end.
Proof.
  serve_cases e s; try exact I; eexists; repeat split.
Qed.
